(** * JVMCI lifecycle coordinator (src/hotspot/share/jvmci/jvmci.cpp)

    A shallow embedding of the static state of class [JVMCI] and of the
    member functions defined in jvmci.cpp, followed by the properties the
    specification states about them.

    Modelling choices.
    - The static fields of [JVMCI] are the fields of the record [VM], with
      the names they have in the source.  A C++ pointer is an [option addr]:
      [None] is NULL.  Objects created with [new] live in one heap, a
      [gmap addr Object]; [new] picks an address that is not in use.
    - A member function is a computation in the monad [M]: it takes the
      state and either returns a value and a state ([Ret]) or terminates
      the process ([Stop]): [fatal], a failed [guarantee] or [assert], a
      dereference of an invalid pointer, a lock that is not free.
    - What the functions do to their collaborators (the mutex, the event
      logs, the console, the runtimes, the handle tables, the OS loader) is
      appended, in program order, to the list [effects] of the state.
    - VM flags ([Flags]) and what the platform provides ([Platform]) are
      parameters: their declarations are not part of jvmci.cpp.
    - Calls are atomic: a process is a sequence of calls of the entry
      points, each by some thread ([run_calls]). *)

From stdpp Require Import base gmap list strings pretty.
From Equations Require Import Equations.
From Stdlib Require Import ZArith Lia.

Local Open Scope Z_scope.

(* stdpp's solvers clear hypotheses by name and warn when one is gone. *)
#[local] Set Warnings "-clear-no-such-hyp".

(** ** Data model *)

Definition addr := positive.
Abbreviation ptr := (option addr).
Abbreviation NULL := (@None addr).

Definition is_null (p : ptr) : bool :=
  match p with None => true | Some _ => false end.

(** A C [int]: 32 bits, two's complement. *)
Definition INT_MIN : Z := - 2 ^ 31.
Definition INT_MAX : Z := 2 ^ 31 - 1.
Definition wrap_int (z : Z) : Z := (z + 2 ^ 31) mod 2 ^ 32 - 2 ^ 31.

(** [JVMCIRuntime]: the fields jvmci.cpp reads. *)
Record JVMCIRuntime := {
  _id : Z;
  _metadata_handles : ptr
}.

(** [StringEventLog(name, handle, count)]: a ring buffer of [count] entries. *)
Record StringEventLog := {
  el_name : string;
  el_handle : string;
  el_count : Z
}.

Record CompileTask := {
  blocking_jvmci_compile_state : ptr
}.

Record JVMCICompileState := {
  _compilation_ticks : Z
}.

Inductive Object :=
| OJVMCIRuntime (r : JVMCIRuntime)
| OMetadataHandles
| OStringEventLog (l : StringEventLog)
| OCompileTask (t : CompileTask)
| OJVMCICompileState (c : JVMCICompileState).

(** A thread, as far as jvmci.cpp looks at it: its name, whether it is a
    [CompilerThread], and the task a compiler thread is bound to. *)
Record Thread := {
  thread_id : positive;
  thread_name : string;
  is_Compiler_thread : bool;
  task : ptr
}.

(** Calls into collaborators, and the store to the volatile shutdown flag. *)
Inductive Effect :=
| ELock                                        (* MutexLocker locker(JVMCI_lock) *)
| EUnlock                                      (* end of the locker's scope *)
| EStoreInShutdown (b : bool)                  (* _in_shutdown = b *)
| ELogv (log : addr) (th : option positive) (msg : string)
                                               (* events->logv(thread, format, ap) *)
| ETtyPrint (text : string)                    (* tty->print(...) *)
| ETtyPrintCr (text : string)                  (* tty->vprint_cr(format, ap) *)
| ERuntimeShutdown (rt : addr)                 (* rt->shutdown() *)
| EMetadataDo (tbl : addr) (f : positive)      (* tbl->metadata_do(f) *)
| EDoUnloading (tbl : addr)                    (* tbl->do_unloading() *)
| EDllLoad (path : string)                     (* os::dll_load(path, ...) *)
| EInitializeIds                               (* JNIJVMCI::initialize_ids(NULL) *)
| ECallGetCompiler (rt : addr).                (* rt->call_getCompiler(CHECK) *)

#[global] Instance Effect_eq_dec : EqDecision Effect.
Proof. solve_decision. Defined.

(** The static state of class [JVMCI], the heap, the owner of [JVMCI_lock]
    and the effects so far. *)
Record VM := {
  _compiler_runtime : ptr;
  _java_runtime : ptr;
  _is_initialized : bool;
  _shared_library_handle : ptr;
  _shared_library_path : option string;
  _in_shutdown : bool;
  _events : ptr;
  _verbose_events : ptr;
  heap : gmap addr Object;
  JVMCI_lock_owner : option positive;
  effects : list Effect
}.

(** The values of the static initialisers at the top of jvmci.cpp. *)
Definition initial_VM : VM := {|
  _compiler_runtime := NULL;
  _java_runtime := NULL;
  _is_initialized := false;
  _shared_library_handle := NULL;
  _shared_library_path := None;
  _in_shutdown := false;
  _events := NULL;
  _verbose_events := NULL;
  heap := ∅;
  JVMCI_lock_owner := None;
  effects := []
|}.

Definition set_compiler_runtime (p : ptr) (s : VM) : VM :=
  {| _compiler_runtime := p; _java_runtime := _java_runtime s;
     _is_initialized := _is_initialized s;
     _shared_library_handle := _shared_library_handle s;
     _shared_library_path := _shared_library_path s;
     _in_shutdown := _in_shutdown s; _events := _events s;
     _verbose_events := _verbose_events s; heap := heap s;
     JVMCI_lock_owner := JVMCI_lock_owner s; effects := effects s |}.

Definition set_java_runtime (p : ptr) (s : VM) : VM :=
  {| _compiler_runtime := _compiler_runtime s; _java_runtime := p;
     _is_initialized := _is_initialized s;
     _shared_library_handle := _shared_library_handle s;
     _shared_library_path := _shared_library_path s;
     _in_shutdown := _in_shutdown s; _events := _events s;
     _verbose_events := _verbose_events s; heap := heap s;
     JVMCI_lock_owner := JVMCI_lock_owner s; effects := effects s |}.

Definition set_shared_library_handle (p : ptr) (s : VM) : VM :=
  {| _compiler_runtime := _compiler_runtime s; _java_runtime := _java_runtime s;
     _is_initialized := _is_initialized s;
     _shared_library_handle := p;
     _shared_library_path := _shared_library_path s;
     _in_shutdown := _in_shutdown s; _events := _events s;
     _verbose_events := _verbose_events s; heap := heap s;
     JVMCI_lock_owner := JVMCI_lock_owner s; effects := effects s |}.

Definition set_shared_library_path (p : option string) (s : VM) : VM :=
  {| _compiler_runtime := _compiler_runtime s; _java_runtime := _java_runtime s;
     _is_initialized := _is_initialized s;
     _shared_library_handle := _shared_library_handle s;
     _shared_library_path := p;
     _in_shutdown := _in_shutdown s; _events := _events s;
     _verbose_events := _verbose_events s; heap := heap s;
     JVMCI_lock_owner := JVMCI_lock_owner s; effects := effects s |}.

Definition set_in_shutdown (b : bool) (s : VM) : VM :=
  {| _compiler_runtime := _compiler_runtime s; _java_runtime := _java_runtime s;
     _is_initialized := _is_initialized s;
     _shared_library_handle := _shared_library_handle s;
     _shared_library_path := _shared_library_path s;
     _in_shutdown := b; _events := _events s;
     _verbose_events := _verbose_events s; heap := heap s;
     JVMCI_lock_owner := JVMCI_lock_owner s; effects := effects s |}.

Definition set_events (p : ptr) (s : VM) : VM :=
  {| _compiler_runtime := _compiler_runtime s; _java_runtime := _java_runtime s;
     _is_initialized := _is_initialized s;
     _shared_library_handle := _shared_library_handle s;
     _shared_library_path := _shared_library_path s;
     _in_shutdown := _in_shutdown s; _events := p;
     _verbose_events := _verbose_events s; heap := heap s;
     JVMCI_lock_owner := JVMCI_lock_owner s; effects := effects s |}.

Definition set_verbose_events (p : ptr) (s : VM) : VM :=
  {| _compiler_runtime := _compiler_runtime s; _java_runtime := _java_runtime s;
     _is_initialized := _is_initialized s;
     _shared_library_handle := _shared_library_handle s;
     _shared_library_path := _shared_library_path s;
     _in_shutdown := _in_shutdown s; _events := _events s;
     _verbose_events := p; heap := heap s;
     JVMCI_lock_owner := JVMCI_lock_owner s; effects := effects s |}.

Definition set_heap (h : gmap addr Object) (s : VM) : VM :=
  {| _compiler_runtime := _compiler_runtime s; _java_runtime := _java_runtime s;
     _is_initialized := _is_initialized s;
     _shared_library_handle := _shared_library_handle s;
     _shared_library_path := _shared_library_path s;
     _in_shutdown := _in_shutdown s; _events := _events s;
     _verbose_events := _verbose_events s; heap := h;
     JVMCI_lock_owner := JVMCI_lock_owner s; effects := effects s |}.

Definition set_lock_owner (o : option positive) (s : VM) : VM :=
  {| _compiler_runtime := _compiler_runtime s; _java_runtime := _java_runtime s;
     _is_initialized := _is_initialized s;
     _shared_library_handle := _shared_library_handle s;
     _shared_library_path := _shared_library_path s;
     _in_shutdown := _in_shutdown s; _events := _events s;
     _verbose_events := _verbose_events s; heap := heap s;
     JVMCI_lock_owner := o; effects := effects s |}.

Definition append_effects (es : list Effect) (s : VM) : VM :=
  {| _compiler_runtime := _compiler_runtime s; _java_runtime := _java_runtime s;
     _is_initialized := _is_initialized s;
     _shared_library_handle := _shared_library_handle s;
     _shared_library_path := _shared_library_path s;
     _in_shutdown := _in_shutdown s; _events := _events s;
     _verbose_events := _verbose_events s; heap := heap s;
     JVMCI_lock_owner := JVMCI_lock_owner s; effects := effects s ++ es |}.

Definition add_effect (e : Effect) (s : VM) : VM := append_effects [e] s.

(** ** The monad of member functions *)

Inductive Abort :=
| Fatal (msg : string)            (* fatal(...) *)
| GuaranteeFailed (msg : string)  (* guarantee(cond, msg) with cond false *)
| AssertFailed (msg : string)     (* assert(cond, msg) with cond false, debug builds *)
| ShouldNotReachHere              (* ShouldNotReachHere() *)
| BadPointer                      (* a NULL or dangling pointer is dereferenced *)
| WouldBlock.                     (* JVMCI_lock is requested while it is held *)

Inductive Outcome (A : Type) :=
| Ret (a : A) (s : VM)
| Stop (e : Abort) (s : VM).
Arguments Ret {A} a s.
Arguments Stop {A} e s.

Definition M (A : Type) : Type := VM -> Outcome A.

Definition ret {A} (a : A) : M A := fun s => Ret a s.

Definition bind {A B} (m : M A) (k : A -> M B) : M B :=
  fun s => match m s with
           | Ret a s' => k a s'
           | Stop e s' => Stop e s'
           end.

Declare Scope vm_scope.
Delimit Scope vm_scope with vm.
Notation "x <- m ;; k" := (bind m (fun x => k))
  (at level 100, m at next level, right associativity) : vm_scope.
Notation "m ;;; k" := (bind m (fun _ => k))
  (at level 100, right associativity) : vm_scope.
Local Open Scope vm_scope.

Definition final_state {A} (o : Outcome A) : VM :=
  match o with Ret _ s => s | Stop _ s => s end.

Definition returns {A} (o : Outcome A) : bool :=
  match o with Ret _ _ => true | Stop _ _ => false end.

Definition read {A} (f : VM -> A) : M A := fun s => Ret (f s) s.
Definition update (f : VM -> VM) : M unit := fun s => Ret tt (f s).
Definition emit (e : Effect) : M unit := update (add_effect e).
Definition abort {A} (e : Abort) : M A := fun s => Stop e s.

(** [new T(...)]: the object is placed at an address not in use. *)
Definition new (o : Object) : M addr :=
  fun s => let a := fresh (dom (heap s)) in
           Ret a (set_heap (<[a := o]> (heap s)) s).

(** [p->...] on a [JVMCIRuntime*]. *)
Definition deref_runtime (p : ptr) : M JVMCIRuntime :=
  fun s => match p with
           | Some a => match heap s !! a with
                       | Some (OJVMCIRuntime r) => Ret r s
                       | _ => Stop BadPointer s
                       end
           | None => Stop BadPointer s
           end.

(** [p->...] on a [MetadataHandles*]: the address of the table. *)
Definition deref_handles (p : ptr) : M addr :=
  fun s => match p with
           | Some a => match heap s !! a with
                       | Some OMetadataHandles => Ret a s
                       | _ => Stop BadPointer s
                       end
           | None => Stop BadPointer s
           end.

(** [p->...] on a [StringEventLog*]: the address of the log. *)
Definition deref_log (p : ptr) : M addr :=
  fun s => match p with
           | Some a => match heap s !! a with
                       | Some (OStringEventLog _) => Ret a s
                       | _ => Stop BadPointer s
                       end
           | None => Stop BadPointer s
           end.

Definition deref_task (p : ptr) : M CompileTask :=
  fun s => match p with
           | Some a => match heap s !! a with
                       | Some (OCompileTask t) => Ret t s
                       | _ => Stop BadPointer s
                       end
           | None => Stop BadPointer s
           end.

Definition deref_state (p : ptr) : M (addr * JVMCICompileState) :=
  fun s => match p with
           | Some a => match heap s !! a with
                       | Some (OJVMCICompileState c) => Ret (a, c) s
                       | _ => Stop BadPointer s
                       end
           | None => Stop BadPointer s
           end.

Definition fatal {A} (msg : string) : M A := abort (Fatal msg).

Definition guarantee (cond : bool) (msg : string) : M unit :=
  if cond then ret tt else abort (GuaranteeFailed msg).

(** ** Flags and platform *)

(** The VM flags jvmci.cpp reads (declared in globals.hpp and
    jvmci_globals.hpp). *)
Record Flags := {
  LogEvents : bool;
  JVMCIEventLogLevel : Z;
  LogEventsBufferEntries : Z;
  UseJVMCINativeLibrary : bool;
  JVMCILibPath : option string;
  JVMCILibDumpJNIConfig : bool;
  JVMCITraceLevel : Z
}.

(** What the build and the operating system provide:
    - [ASSERT]: whether [assert] is compiled in (debug builds);
    - [max_EventLog_level]: the constant of that name in jvmci.hpp;
    - [os::dll_locate_lib(buf, len, dir, name)]: the path written to [buf],
      or [None] when it returns false;
    - [os::dll_load(path, ebuf, len)]: the handle returned and the text
      left in [ebuf]. *)
Record Platform := {
  ASSERT : bool;
  max_EventLog_level : Z;
  JVMCI_SHARED_LIBRARY_NAME : string;
  get_dll_dir : string;
  dll_locate_lib : string -> string -> option string;
  dll_load : string -> ptr * string
}.

(** [printf]'s [%*c] with width [w] and the character [' ']: the character
    padded with blanks to [|w|] columns, at least the character itself. *)
Definition pad_blank (w : Z) : string :=
  String.concat "" (replicate (Z.to_nat (Z.max 1 (Z.abs w))) " "%string).

(** ** The member functions of jvmci.cpp *)

Section Model.
Variable flags : Flags.
Variable os : Platform.
(** [Thread::current_or_null_safe()]: the calling thread, [None] when the
    caller is not attached to the VM. *)
Variable current : option Thread.

(** [assert(cond, msg)]: checked in debug builds only. *)
Definition assert (cond : bool) (msg : string) : M unit :=
  if ASSERT os && negb cond then abort (AssertFailed msg) else ret tt.

(** [MutexLocker locker(JVMCI_lock)]: the lock is taken by the calling
    thread, which has to be attached; a call that finds the lock held does
    not proceed. *)
Definition MutexLocker_lock : M unit :=
  fun s => match current with
           | None => Stop BadPointer s
           | Some t =>
               match JVMCI_lock_owner s with
               | None => Ret tt (add_effect ELock (set_lock_owner (Some (thread_id t)) s))
               | Some _ => Stop WouldBlock s
               end
           end.

Definition MutexLocker_unlock : M unit :=
  fun s => Ret tt (add_effect EUnlock (set_lock_owner None s)).

(** [JVMCI::vlog(level, format, ap)]; [msg] is [format] applied to [ap]. *)
Definition vlog (level : Z) (msg : string) : M unit :=
  if LogEvents flags && (level <=? JVMCIEventLogLevel flags) then
    events <- read (if level =? 1 then _events else _verbose_events) ;;
    guarantee (negb (is_null events)) "JVMCI event log not yet initialized" ;;;
    let thread := current in
    log <- deref_log events ;;
    emit (ELogv log (thread_id <$> thread) msg)
  else ret tt.

(** [JVMCI::vtrace(level, format, ap)]. *)
Definition vtrace (level : Z) (msg : string) : M unit :=
  if level <=? JVMCITraceLevel flags then
    let thread := current in
    match thread with
    | Some t =>
        emit (ETtyPrint ("JVMCITrace-" +:+ pretty level +:+ "[" +:+ thread_name t
                         +:+ "]:" +:+ pad_blank level))
    | None =>
        emit (ETtyPrint ("JVMCITrace-" +:+ pretty level +:+ "[?]:" +:+ pad_blank level))
    end ;;;
    emit (ETtyPrintCr msg)
  else ret tt.

(** The macro [LOG_TRACE(level)]. *)
Definition LOG_TRACE (level : Z) (msg : string) : M unit :=
  vlog level msg ;;; vtrace level msg.

Definition event (level : Z) (msg : string) : M unit := LOG_TRACE level msg.
Definition event1 (msg : string) : M unit := LOG_TRACE 1 msg.
Definition event2 (msg : string) : M unit := LOG_TRACE 2 msg.
Definition event3 (msg : string) : M unit := LOG_TRACE 3 msg.
Definition event4 (msg : string) : M unit := LOG_TRACE 4 msg.

(** Modelled from the spec: the macro [JVMCI_event_1] is defined in
    jvmci.hpp, not in jvmci.cpp.  The spec calls its uses "emit a level-1
    event", which is [JVMCI::event1]. *)
Definition JVMCI_event_1 (msg : string) : M unit := event1 msg.

(** [JVMCI::can_initialize_JVMCI()].  The two arguments are what the
    module system reports at the time of the call:
    [SystemDictionary::java_system_loader()] and
    [Universe::is_module_initialized()]. *)
Definition can_initialize_JVMCI (java_system_loader : ptr)
    (is_module_initialized : bool) : M bool :=
  if is_null java_system_loader then ret false
  else
    assert is_module_initialized "must be" ;;;
    ret true.

(** [JVMCI::get_shared_library(path, load)]; the result is the returned
    handle together with the value left in the reference parameter [path]
    (the intermediate [path = NULL] is overwritten before every return). *)
Definition get_shared_library (load : bool) : M (ptr * option string) :=
  sl_handle <- read _shared_library_handle ;;
  if negb (is_null sl_handle) || negb load then
    path <- read _shared_library_path ;;
    ret (sl_handle, path)
  else
    owner <- read JVMCI_lock_owner ;;
    assert (bool_decide (is_Some current ∧ owner = thread_id <$> current)) "must be" ;;;
    h <- read _shared_library_handle ;;
    (if is_null h then
       path <- match JVMCILibPath flags with
               | Some lib_path =>
                   match dll_locate_lib os lib_path (JVMCI_SHARED_LIBRARY_NAME os) with
                   | Some p => ret p
                   | None =>
                       fatal ("Unable to create path to JVMCI shared library based on value of JVMCILibPath ("
                              +:+ lib_path +:+ ")")
                   end
               | None =>
                   match dll_locate_lib os (get_dll_dir os) (JVMCI_SHARED_LIBRARY_NAME os) with
                   | Some p => ret p
                   | None => fatal "Unable to create path to JVMCI shared library"
                   end
               end ;;
       emit (EDllLoad path) ;;;
       let '(handle, ebuf) := dll_load os path in
       (if is_null handle then
          fatal ("Unable to load JVMCI shared library from " +:+ path +:+ ": " +:+ ebuf)
        else ret tt) ;;;
       update (set_shared_library_handle handle) ;;;
       update (set_shared_library_path (Some path)) ;;;
       JVMCI_event_1 ("loaded JVMCI shared library from " +:+ path)
     else ret tt) ;;;
    path <- read _shared_library_path ;;
    h <- read _shared_library_handle ;;
    ret (h, path).

(** The loop of [initialize_globals]:
    [for (int i = 1; i < JVMCIEventLogLevel && i < max_EventLog_level; i++)
       count = count * 10;]
    [i] stays below the [int] constant [max_EventLog_level], so [i++]
    does not overflow; [count * 10] is an [int] product. *)
Equations? expand_count (i count : Z) : Z
  by wf (Z.to_nat (max_EventLog_level os - i)) lt :=
  expand_count i count with decide (i < JVMCIEventLogLevel flags ∧ i < max_EventLog_level os) := {
    | left _ => expand_count (i + 1) (wrap_int (count * 10))
    | right _ => count }.
Proof. lia. Qed.

(** Modelled from the spec: the constructor [JVMCIRuntime(int id)] is
    defined in jvmciRuntime.cpp.  Per the spec a runtime is constructed
    with an integer role and has its own metadata handle table. *)
Definition new_JVMCIRuntime (id : Z) : M addr :=
  handles <- new OMetadataHandles ;;
  new (OJVMCIRuntime {| _id := id; _metadata_handles := Some handles |}).

(** [new StringEventLog(name, handle, count)]; when the source omits
    [count], the declaration in events.hpp defaults it to
    [LogEventsBufferEntries]. *)
Definition new_StringEventLog (name handle : string) (count : Z) : M addr :=
  new (OStringEventLog {| el_name := name; el_handle := handle; el_count := count |}).

(** [jvmci_vmStructs_init()]: defined elsewhere, and empty in product
    builds ([NOT_DEBUG_RETURN]); it touches none of the state modelled here. *)
Definition jvmci_vmStructs_init : M unit := ret tt.

(** [JVMCI::initialize_globals()], first block: [if (LogEvents) { ... }]. *)
Definition initialize_event_logs : M unit :=
  if LogEvents flags then
    if 0 <? JVMCIEventLogLevel flags then
      e <- new_StringEventLog "JVMCI Events" "jvmci"
             (wrap_int (LogEventsBufferEntries flags)) ;;
      update (set_events (Some e)) ;;;
      if 1 <? JVMCIEventLogLevel flags then
        let count := wrap_int (LogEventsBufferEntries flags) in
        let count := expand_count 1 count in
        v <- new_StringEventLog "Verbose JVMCI Events" "verbose-jvmci" count ;;
        update (set_verbose_events (Some v))
      else ret tt
    else ret tt
  else ret tt.

(** [JVMCI::initialize_globals()], second block:
    [if (UseJVMCINativeLibrary) { ... } else { ... }]. *)
Definition initialize_runtimes : M unit :=
  if UseJVMCINativeLibrary flags then
    (* There are two runtimes. *)
    c <- new_JVMCIRuntime 0 ;;
    update (set_compiler_runtime (Some c)) ;;;
    j <- new_JVMCIRuntime (-1) ;;
    update (set_java_runtime (Some j))
  else
    (* There is only a single runtime *)
    c <- new_JVMCIRuntime 0 ;;
    update (set_compiler_runtime (Some c)) ;;;
    c' <- read _compiler_runtime ;;
    update (set_java_runtime c').

(** [JVMCI::initialize_globals()]. *)
Definition initialize_globals : M unit :=
  jvmci_vmStructs_init ;;;
  initialize_event_logs ;;;
  initialize_runtimes.

(** Modelled from the spec: [JVMCICompileState::inc_compilation_ticks()]
    is defined in jvmciEnv.cpp.  Per the spec it increments the state's
    tick counter by one. *)
Definition inc_compilation_ticks (state : ptr) : M unit :=
  ac <- deref_state state ;;
  let '(a, c) := ac in
  update (fun s =>
    set_heap (<[a := OJVMCICompileState
                       {| _compilation_ticks := _compilation_ticks c + 1 |}]> (heap s)) s).

(** [JVMCI::compilation_tick(thread)]. *)
Definition compilation_tick (thread : Thread) : M Thread :=
  (if is_Compiler_thread thread then
     let task := task thread in
     if negb (is_null task) then
       t <- deref_task task ;;
       let state := blocking_jvmci_compile_state t in
       if negb (is_null state) then inc_compilation_ticks state else ret tt
     else ret tt
   else ret tt) ;;;
  ret thread.

(** [rt->_metadata_handles->metadata_do(f)]; [f] names the visitor. *)
Definition handles_metadata_do (rt : ptr) (f : positive) : M unit :=
  r <- deref_runtime rt ;;
  tbl <- deref_handles (_metadata_handles r) ;;
  emit (EMetadataDo tbl f).

(** [rt->_metadata_handles->do_unloading()]. *)
Definition handles_do_unloading (rt : ptr) : M unit :=
  r <- deref_runtime rt ;;
  tbl <- deref_handles (_metadata_handles r) ;;
  emit (EDoUnloading tbl).

(** [JVMCI::metadata_do(f)]. *)
Definition metadata_do (f : positive) : M unit :=
  j <- read _java_runtime ;;
  (if negb (is_null j) then handles_metadata_do j f else ret tt) ;;;
  c <- read _compiler_runtime ;;
  j <- read _java_runtime ;;
  if negb (is_null c) && bool_decide (c ≠ j) then handles_metadata_do c f
  else ret tt.

(** [JVMCI::do_unloading(unloading_occurred)]. *)
Definition do_unloading (unloading_occurred : bool) : M unit :=
  if unloading_occurred then
    j <- read _java_runtime ;;
    (if negb (is_null j) then handles_do_unloading j else ret tt) ;;;
    c <- read _compiler_runtime ;;
    j <- read _java_runtime ;;
    if negb (is_null c) && bool_decide (c ≠ j) then handles_do_unloading c
    else ret tt
  else ret tt.

(** [JVMCI::is_compiler_initialized()]. *)
Definition is_compiler_initialized : M bool := read _is_initialized.

(** [JVMCI::compiler_runtime()], the accessor declared in jvmci.hpp. *)
Definition compiler_runtime : M ptr := read _compiler_runtime.

(** [rt->call_getCompiler(CHECK)]: [JVMCIRuntime::call_getCompiler] is
    defined in jvmciRuntime.cpp; the call is recorded.  Whether it leaves
    an exception pending makes no difference to [initialize_compiler],
    which returns right after it. *)
Definition JVMCIRuntime_call_getCompiler (rt : ptr) : M unit :=
  fun s => match rt with
           | Some a => match heap s !! a with
                       | Some (OJVMCIRuntime _) => Ret tt (add_effect (ECallGetCompiler a) s)
                       | _ => Stop BadPointer s
                       end
           | None => Stop BadPointer s
           end.

(** [JVMCI::initialize_compiler(TRAPS)].  [JNIJVMCI::initialize_ids] is
    defined in jvmciJavaClasses.cpp; the call is recorded, and if it
    returns the process ends at [ShouldNotReachHere()]. *)
Definition initialize_compiler : M unit :=
  (if JVMCILibDumpJNIConfig flags then
     emit EInitializeIds ;;;
     abort ShouldNotReachHere
   else ret tt) ;;;
  c <- compiler_runtime ;;
  JVMCIRuntime_call_getCompiler c.

(** [rt->shutdown()]: [JVMCIRuntime::shutdown] is defined in
    jvmciRuntime.cpp; the call is recorded. *)
Definition JVMCIRuntime_shutdown (rt : ptr) : M unit :=
  fun s => match rt with
           | Some a => match heap s !! a with
                       | Some (OJVMCIRuntime _) => Ret tt (add_effect (ERuntimeShutdown a) s)
                       | _ => Stop BadPointer s
                       end
           | None => Stop BadPointer s
           end.

(** [JVMCI::shutdown()]. *)
Definition shutdown : M unit :=
  MutexLocker_lock ;;;
  update (set_in_shutdown true) ;;;
  emit (EStoreInShutdown true) ;;;
  JVMCI_event_1 "shutting down JVMCI" ;;;
  MutexLocker_unlock ;;;
  java_runtime <- read _java_runtime ;;
  c <- compiler_runtime ;;
  (if bool_decide (java_runtime ≠ c) then JVMCIRuntime_shutdown java_runtime
   else ret tt) ;;;
  c <- compiler_runtime ;;
  if negb (is_null c) then JVMCIRuntime_shutdown c else ret tt.

(** [JVMCI::in_shutdown()]. *)
Definition in_shutdown : M bool := read _in_shutdown.

End Model.

Arguments JVMCIRuntime_shutdown : simpl never.
Arguments JVMCIRuntime_call_getCompiler : simpl never.

(** ** Sequences of calls *)

(** The entry points of jvmci.cpp; a process is a sequence of calls, each
    made by some thread. *)
Inductive Call :=
| CallCanInitialize (java_system_loader : ptr) (is_module_initialized : bool)
| CallInitializeCompiler
| CallInitializeGlobals
| CallGetSharedLibrary (load : bool)
| CallCompilationTick (thread : Thread)
| CallMetadataDo (f : positive)
| CallDoUnloading (unloading_occurred : bool)
| CallIsCompilerInitialized
| CallShutdown
| CallInShutdown
| CallEvent (level : Z) (msg : string).

Definition ignore {A} (m : M A) : M unit := _ <- m ;; ret tt.

Definition run_call (flags : Flags) (os : Platform)
    (c : option Thread * Call) : M unit :=
  let current := c.1 in
  match c.2 with
  | CallCanInitialize loader modules => ignore (can_initialize_JVMCI os loader modules)
  | CallInitializeCompiler => initialize_compiler flags
  | CallInitializeGlobals => initialize_globals flags os
  | CallGetSharedLibrary load => ignore (get_shared_library flags os current load)
  | CallCompilationTick thread => ignore (compilation_tick thread)
  | CallMetadataDo f => metadata_do f
  | CallDoUnloading b => do_unloading b
  | CallIsCompilerInitialized => ignore is_compiler_initialized
  | CallShutdown => shutdown flags current
  | CallInShutdown => ignore in_shutdown
  | CallEvent level msg => event flags current level msg
  end.

(** The calls are made one after the other; nothing runs after the
    process has terminated. *)
Fixpoint run_calls (flags : Flags) (os : Platform)
    (cs : list (option Thread * Call)) : M unit :=
  match cs with
  | [] => ret tt
  | c :: cs' => run_call flags os c ;;; run_calls flags os cs'
  end.

Definition is_initialize_globals (c : Call) : bool :=
  match c with CallInitializeGlobals => true | _ => false end.

(** ** Notions used in the statements *)

(** The handle table of the runtime [p] points to, when [p] points to a
    runtime whose [_metadata_handles] points to a table. *)
Definition table_of (s : VM) (p : ptr) : option addr :=
  match p with
  | Some a =>
      match heap s !! a with
      | Some (OJVMCIRuntime r) =>
          match _metadata_handles r with
          | Some t => match heap s !! t with
                      | Some OMetadataHandles => Some t
                      | _ => None
                      end
          | None => None
          end
      | _ => None
      end
  | None => None
  end.

Arguments table_of : simpl never.

Definition is_runtime (s : VM) (p : ptr) : bool := bool_decide (is_Some (table_of s p)).

Definition is_log (s : VM) (p : ptr) : bool :=
  match p with
  | Some a => match heap s !! a with Some (OStringEventLog _) => true | _ => false end
  | None => false
  end.

(** The role a runtime pointer was constructed with. *)
Definition role_of (s : VM) (p : ptr) : option Z :=
  match p with
  | Some a => match heap s !! a with Some (OJVMCIRuntime r) => Some (_id r) | _ => None end
  | None => None
  end.

(** Every pointer held in a static field is NULL or points to a live object
    of its type, and two different runtimes have different handle tables. *)
Definition wf_vm (s : VM) : bool :=
  (is_null (_compiler_runtime s) || is_runtime s (_compiler_runtime s))
  && (is_null (_java_runtime s) || is_runtime s (_java_runtime s))
  && (is_null (_events s) || is_log s (_events s))
  && (is_null (_verbose_events s) || is_log s (_verbose_events s))
  && bool_decide (_compiler_runtime s = _java_runtime s
                  ∨ table_of s (_compiler_runtime s) ≠ table_of s (_java_runtime s)).

(** The channel [vlog] selects for [level]. *)
Definition selected_channel (level : Z) (s : VM) : ptr :=
  if level =? 1 then _events s else _verbose_events s.

(** [vlog]'s gate. *)
Definition log_gate (flags : Flags) (level : Z) : bool :=
  LogEvents flags && (level <=? JVMCIEventLogLevel flags).

(** A call at [level] finds the channel it needs: the gate is closed, or
    the selected channel has been constructed. *)
Definition channel_ready (flags : Flags) (level : Z) (s : VM) : bool :=
  negb (log_gate flags level) || is_log s (selected_channel level s).

Definition is_logv (e : Effect) : bool :=
  match e with ELogv _ _ _ => true | _ => false end.

Definition is_tty (e : Effect) : bool :=
  match e with ETtyPrint _ | ETtyPrintCr _ => true | _ => false end.

Definition is_dll_load (e : Effect) : bool :=
  match e with EDllLoad _ => true | _ => false end.

(** How many times the OS loader was asked to load a library. *)
Definition dll_loads (es : list Effect) : nat := length (List.filter is_dll_load es).

(** How many times [rt->shutdown()] was called on the runtime at [rt]. *)
Definition shutdowns_of (rt : addr) (es : list Effect) : nat :=
  count_occ Effect_eq_dec es (ERuntimeShutdown rt).

(** [msg] includes [part] as a piece of its text. *)
Definition includes (msg part : string) : Prop :=
  ∃ pre post, msg = pre +:+ part +:+ post.

(** The compile state a thread's [compilation_tick] reaches: the thread is
    a compiler thread, bound to a task, and the task has a blocking
    compile state. *)
Definition bound_state (s : VM) (thread : Thread) : ptr :=
  if is_Compiler_thread thread then
    match task thread with
    | Some t => match heap s !! t with
                | Some (OCompileTask ct) => blocking_jvmci_compile_state ct
                | _ => None
                end
    | None => None
    end
  else None.

Definition ticks_at (s : VM) (a : addr) : option Z :=
  match heap s !! a with
  | Some (OJVMCICompileState c) => Some (_compilation_ticks c)
  | _ => None
  end.

(** The pointers [compilation_tick] follows from [thread] are NULL or valid. *)
Definition thread_ok (s : VM) (thread : Thread) : bool :=
  negb (is_Compiler_thread thread)
  || match task thread with
     | None => true
     | Some t =>
         match heap s !! t with
         | Some (OCompileTask ct) =>
             match blocking_jvmci_compile_state ct with
             | None => true
             | Some a => bool_decide (is_Some (ticks_at s a))
             end
         | _ => false
         end
     end.

(** The effects a call adds: those of [s'] after those of [s]. *)
Definition new_effects (s s' : VM) : list Effect :=
  drop (length (effects s)) (effects s').

(** An entry was appended to an event log; a trace line was written. *)
Definition logged (es : list Effect) : Prop := ∃ e, e ∈ es ∧ is_logv e = true.
Definition traced (es : list Effect) : Prop := ∃ e, e ∈ es ∧ is_tty e = true.

(** What the spec says of a call [event(level, ...)] in state [s]: an
    entry is logged exactly when logging is enabled and the log level
    reaches [level], and a line is traced exactly when the trace level
    reaches [level]. *)
Definition recorded_iff_enabled (flags : Flags) (current : option Thread)
    (level : Z) (msg : string) (s : VM) : Prop :=
  let es := new_effects s (final_state (event flags current level msg s)) in
  (logged es ↔ LogEvents flags = true ∧ level <= JVMCIEventLogLevel flags)
  ∧ (traced es ↔ level <= JVMCITraceLevel flags).

(** What the spec says of a second call of [shutdown]: a runtime that
    both roles alias is not shut down again by the second call. *)
Definition second_shutdown_skips_aliased (flags : Flags) (current : option Thread)
    (s : VM) : Prop :=
  ∀ a, _compiler_runtime s = Some a -> _java_runtime s = Some a ->
    let s1 := final_state (shutdown flags current s) in
    let s2 := final_state (shutdown flags current s1) in
    shutdowns_of a (new_effects s1 s2) = 0%nat.

(** The state [shutdown] has reached when it emits its event: the lock is
    held by the caller and the flag is set. *)
Definition shutdown_flagged (t : Thread) (s : VM) : VM :=
  add_effect (EStoreInShutdown true)
    (set_in_shutdown true (add_effect ELock (set_lock_owner (Some (thread_id t)) s))).

(** The calls of [rt->shutdown()] the spec describes for phase 2: the java
    runtime when it is not the compiler runtime, then the compiler runtime
    when there is one. *)
Definition runtime_shutdowns (s : VM) : list Effect :=
  (if bool_decide (_java_runtime s = _compiler_runtime s) then []
   else match _java_runtime s with Some j => [ERuntimeShutdown j] | None => [] end)
  ++ match _compiler_runtime s with Some c => [ERuntimeShutdown c] | None => [] end.

(** The runtime fields and the roles of the runtimes are the same in [s']
    as in [s]. *)
Definition runtimes_fixed (s s' : VM) : Prop :=
  _compiler_runtime s' = _compiler_runtime s
  ∧ _java_runtime s' = _java_runtime s
  ∧ ∀ p z, role_of s p = Some z -> role_of s' p = Some z.

(** The published library and the number of loads are the same in [s']
    as in [s]. *)
Definition library_fixed (s s' : VM) : Prop :=
  _shared_library_handle s' = _shared_library_handle s
  ∧ _shared_library_path s' = _shared_library_path s
  ∧ dll_loads (effects s') = dll_loads (effects s).

(** Both: the call that led from [s] to [s'] touched neither. *)
Definition stable (s s' : VM) : Prop := runtimes_fixed s s' ∧ library_fixed s s'.

(** A call with outcome [o] from state [s] left the library alone, or it
    found no handle and asked the loader once, after which the process has
    stopped or a handle is published. *)
Definition loads_at_most_once {A} (s : VM) (o : Outcome A) : Prop :=
  library_fixed s (final_state o)
  ∨ (_shared_library_handle s = NULL
     ∧ dll_loads (effects (final_state o)) = S (dll_loads (effects s))
     ∧ (returns o = false ∨ _shared_library_handle (final_state o) ≠ NULL)).

(** The directory [get_shared_library] searches: [JVMCILibPath] when it is
    set, the VM's library directory otherwise; and what the search yields. *)
Definition library_dir (flags : Flags) (os : Platform) : string :=
  match JVMCILibPath flags with Some lib_path => lib_path | None => get_dll_dir os end.

Definition located (flags : Flags) (os : Platform) : option string :=
  dll_locate_lib os (library_dir flags os) (JVMCI_SHARED_LIBRARY_NAME os).

(** The [assert] of [get_shared_library] passes: asserts are compiled out,
    or the calling thread owns [JVMCI_lock]. *)
Definition lock_assert_ok (os : Platform) (current : option Thread) (s : VM) : bool :=
  negb (ASSERT os)
  || bool_decide (is_Some current ∧ JVMCI_lock_owner s = thread_id <$> current).

(** The path a failed call was working on (the resolved path, or the
    directory searched when none could be built) and the loader's error
    text (none before a load is tried). *)
Definition attempted_path (flags : Flags) (os : Platform) : string :=
  match located flags os with Some p => p | None => library_dir flags os end.

Definition loader_error (flags : Flags) (os : Platform) : string :=
  match located flags os with Some p => (dll_load os p).2 | None => ""%string end.

(** What the spec says of a fatal [get_shared_library]: the message
    includes the attempted path and the loader's error text. *)
Definition fatal_names_path_and_error (flags : Flags) (os : Platform)
    (current : option Thread) (s : VM) : Prop :=
  ∀ msg s', get_shared_library flags os current true s = Stop (Fatal msg) s' ->
    includes msg (attempted_path flags os) ∧ includes msg (loader_error flags os).

(** The characters of a string. *)
Fixpoint chars (s : string) : list Ascii.ascii :=
  match s with
  | EmptyString => []
  | String c s' => c :: chars s'
  end.

(** ** Sample configurations *)

Definition flags_single : Flags := {|
  LogEvents := true; JVMCIEventLogLevel := 1; LogEventsBufferEntries := 20;
  UseJVMCINativeLibrary := false; JVMCILibPath := None;
  JVMCILibDumpJNIConfig := false; JVMCITraceLevel := 1 |}.

Definition flags_dual : Flags := {|
  LogEvents := true; JVMCIEventLogLevel := 3; LogEventsBufferEntries := 20;
  UseJVMCINativeLibrary := true; JVMCILibPath := Some "/graal"%string;
  JVMCILibDumpJNIConfig := false; JVMCITraceLevel := 0 |}.

(** A platform on which the library is found and loads. *)
Definition os_good : Platform := {|
  ASSERT := true; max_EventLog_level := 4;
  JVMCI_SHARED_LIBRARY_NAME := "jvmcicompiler"; get_dll_dir := "/opt/jdk/lib";
  dll_locate_lib := fun dir name => Some (dir +:+ "/lib" +:+ name +:+ ".so");
  dll_load := fun _ => (Some 77%positive, ""%string) |}.

(** A platform on which no path can be built. *)
Definition os_no_path : Platform := {|
  ASSERT := true; max_EventLog_level := 4;
  JVMCI_SHARED_LIBRARY_NAME := "jvmcicompiler"; get_dll_dir := "/opt/jdk/lib";
  dll_locate_lib := fun _ _ => None;
  dll_load := fun _ => (Some 77%positive, ""%string) |}.

(** A platform on which the library is found and fails to load. *)
Definition os_no_load : Platform := {|
  ASSERT := true; max_EventLog_level := 4;
  JVMCI_SHARED_LIBRARY_NAME := "jvmcicompiler"; get_dll_dir := "/opt/jdk/lib";
  dll_locate_lib := fun dir name => Some (dir +:+ "/lib" +:+ name +:+ ".so");
  dll_load := fun _ => (NULL, "wrong ELF class"%string) |}.

Definition main_thread : Thread := {|
  thread_id := 1; thread_name := "main"; is_Compiler_thread := false; task := None |}.

Definition compiler_thread : Thread := {|
  thread_id := 2; thread_name := "JVMCI-native CompilerThread0";
  is_Compiler_thread := true; task := Some 10%positive |}.

(** The state after [initialize_globals], from the static initialisers. *)
Definition vm_single : VM :=
  final_state (initialize_globals flags_single os_good initial_VM).

Definition vm_dual : VM :=
  final_state (initialize_globals flags_dual os_good initial_VM).

(** [vm_dual] with the lock held by the main thread. *)
Definition vm_dual_locked : VM := set_lock_owner (Some 1%positive) vm_dual.

(** The initial state with the lock held by the main thread. *)
Definition vm_initial_locked : VM := set_lock_owner (Some 1%positive) initial_VM.

(** [vm_dual_locked] after the main thread has loaded the library. *)
Definition vm_loaded : VM :=
  final_state (get_shared_library flags_dual os_good (Some main_thread) true vm_dual_locked).

(** A heap with a compile task bound to a blocking compile state that has
    seen 41 ticks, and a second state that belongs to no task. *)
Definition vm_compiling : VM :=
  set_heap (<[10%positive := OCompileTask {| blocking_jvmci_compile_state := Some 11%positive |}]>
            (<[11%positive := OJVMCICompileState {| _compilation_ticks := 41 |}]>
             (<[12%positive := OJVMCICompileState {| _compilation_ticks := 7 |}]> ∅)))
           initial_VM.

(** ** How a call can change the state *)

(** The state [s'] an entry point leaves, against the state [s] it was
    called in: effects only; the shutdown flag set (and the lock taken or
    released); a library published; a tick counted in a compile state; or
    the globals initialised. *)
Inductive CallShape (flags : Flags) (os : Platform) (s s' : VM) : Prop :=
| shape_effects (es : list Effect) :
    s' = append_effects es s -> CallShape flags os s s'
| shape_shutdown (es : list Effect) (o : option positive) :
    s' = append_effects es (set_lock_owner o (set_in_shutdown true s)) ->
    CallShape flags os s s'
| shape_loaded (es : list Effect) (h : addr) (p : string) :
    _shared_library_handle s = NULL ->
    s' = append_effects es
           (set_shared_library_path (Some p) (set_shared_library_handle (Some h) s)) ->
    CallShape flags os s s'
| shape_tick (a : addr) (c c' : JVMCICompileState) :
    heap s !! a = Some (OJVMCICompileState c) ->
    s' = set_heap (<[a := OJVMCICompileState c']> (heap s)) s ->
    CallShape flags os s s'
| shape_init :
    initialize_globals flags os s = Ret tt s' ->
    CallShape flags os s s'.

Definition is_shutdown_call (c : Call) : bool :=
  match c with CallShutdown => true | _ => false end.

(** Every call of [event] at a level of 1 or more finds its channel. *)
Definition logs_ready (flags : Flags) (s : VM) : Prop :=
  ∀ level, 1 <= level -> channel_ready flags level s = true.

(** The two runtime fields are both NULL or both set. *)
Definition runtimes_paired (s : VM) : Prop :=
  is_null (_java_runtime s) = is_null (_compiler_runtime s).

(** The runtimes are arranged as [UseJVMCINativeLibrary] asks: both fields
    are set, to two runtimes when the flag is on and to one when it is off. *)
Definition arranged (flags : Flags) (s : VM) : Prop :=
  _compiler_runtime s ≠ NULL ∧ _java_runtime s ≠ NULL
  ∧ if UseJVMCINativeLibrary flags
    then _compiler_runtime s ≠ _java_runtime s
    else _compiler_runtime s = _java_runtime s.

(** The library handle and its path are both unset or both set. *)
Definition published_together (s : VM) : Prop :=
  is_null (_shared_library_handle s) = bool_decide (_shared_library_path s = None).

(** The tables [metadata_do] visited, and [do_unloading] purged, among the
    effects [es]. *)
Definition tables_touched (es : list Effect) : list addr :=
  omap (fun e => match e with
                 | EMetadataDo t _ => Some t
                 | EDoUnloading t => Some t
                 | _ => None
                 end) es.

(** * Properties *)

(** ** Basic facts about states and the monad *)

Lemma append_effects_nil (s : VM) : append_effects [] s = s.
Proof. destruct s; unfold append_effects; simpl. by rewrite app_nil_r. Qed.

Lemma append_effects_app (es1 es2 : list Effect) (s : VM) :
  append_effects es2 (append_effects es1 s) = append_effects (es1 ++ es2) s.
Proof. unfold append_effects; simpl. by rewrite app_assoc. Qed.

Lemma add_effect_append (e : Effect) (es : list Effect) (s : VM) :
  add_effect e (append_effects es s) = append_effects (es ++ [e]) s.
Proof. apply append_effects_app. Qed.

Lemma table_of_append_effects (es : list Effect) (s : VM) (p : ptr) :
  table_of (append_effects es s) p = table_of s p.
Proof. reflexivity. Qed.

Lemma bind_ret_l {A B} (m : M A) (k : A -> M B) (a : A) (s s' : VM) :
  m s = Ret a s' -> bind m k s = k a s'.
Proof. intros H. unfold bind. by rewrite H. Qed.

Lemma bind_stop {A B} (m : M A) (k : A -> M B) (e : Abort) (s s' : VM) :
  m s = Stop e s' -> bind m k s = Stop e s'.
Proof. intros H. unfold bind. by rewrite H. Qed.

Ltac munfold :=
  unfold bind, read, update, emit, ret, guarantee, fatal, abort, compiler_runtime; simpl.

(** ** The metadata bridge *)

Lemma table_of_Some (s : VM) (p : ptr) (t : addr) :
  table_of s p = Some t ->
  ∃ a r, p = Some a ∧ heap s !! a = Some (OJVMCIRuntime r)
         ∧ _metadata_handles r = Some t ∧ heap s !! t = Some OMetadataHandles.
Proof.
  unfold table_of. destruct p as [a|]; [|done].
  destruct (heap s !! a) as [[r| | | |]|] eqn:Ha; try done.
  destruct (_metadata_handles r) as [t'|] eqn:Hr; [|done].
  destruct (heap s !! t') as [[]|] eqn:Ht; try done.
  intros [= <-]. exists a, r. done.
Qed.

Lemma handles_metadata_do_ok (s : VM) (p : ptr) (t : addr) (f : positive) :
  table_of s p = Some t ->
  handles_metadata_do p f s = Ret tt (add_effect (EMetadataDo t f) s).
Proof.
  intros (a & r & -> & Ha & Hr & Ht)%table_of_Some.
  unfold handles_metadata_do, bind, deref_runtime, deref_handles, emit, update.
  by rewrite Ha, Hr, Ht.
Qed.

Lemma handles_do_unloading_ok (s : VM) (p : ptr) (t : addr) :
  table_of s p = Some t ->
  handles_do_unloading p s = Ret tt (add_effect (EDoUnloading t) s).
Proof.
  intros (a & r & -> & Ha & Hr & Ht)%table_of_Some.
  unfold handles_do_unloading, bind, deref_runtime, deref_handles, emit, update.
  by rewrite Ha, Hr, Ht.
Qed.

Lemma is_runtime_table (s : VM) (p : ptr) :
  (is_null p || is_runtime s p) = true -> p ≠ NULL -> ∃ t, table_of s p = Some t.
Proof.
  destruct p as [a|]; simpl; [|done].
  unfold is_runtime. intros H%bool_decide_eq_true _. destruct H as [t Ht]. eauto.
Qed.

Lemma wf_vm_inv (s : VM) :
  wf_vm s = true ->
  (is_null (_compiler_runtime s) || is_runtime s (_compiler_runtime s)) = true
  ∧ (is_null (_java_runtime s) || is_runtime s (_java_runtime s)) = true
  ∧ (is_null (_events s) || is_log s (_events s)) = true
  ∧ (is_null (_verbose_events s) || is_log s (_verbose_events s)) = true
  ∧ (_compiler_runtime s = _java_runtime s
     ∨ table_of s (_compiler_runtime s) ≠ table_of s (_java_runtime s)).
Proof.
  unfold wf_vm. rewrite !andb_true_iff, bool_decide_eq_true. tauto.
Qed.

(** C10. Before [initialize_globals], while [_java_runtime] and
    [_compiler_runtime] are both NULL, [metadata_do] and [do_unloading]
    return normally and leave the state as it is: no handle table is
    visited or purged and no pointer is dereferenced. *)
Theorem bridge_before_initialize (f : positive) (unloading_occurred : bool) (s : VM) :
  _java_runtime s = NULL -> _compiler_runtime s = NULL ->
  metadata_do f s = Ret tt s ∧ do_unloading unloading_occurred s = Ret tt s.
Proof.
  intros Hj Hc. unfold metadata_do, do_unloading. munfold.
  destruct unloading_occurred; rewrite Hj; simpl; rewrite ?Hc; done.
Qed.

Lemma bridge_before_initialize_witness :
  _java_runtime initial_VM = NULL ∧ _compiler_runtime initial_VM = NULL
  ∧ metadata_do 5 initial_VM = Ret tt initial_VM
  ∧ do_unloading true initial_VM = Ret tt initial_VM.
Proof.
  split; [reflexivity|]. split; [reflexivity|].
  apply (bridge_before_initialize 5 true initial_VM); reflexivity.
Defined.

(** C4. In a well-formed state [metadata_do] visits, and
    [do_unloading(true)] purges, the java runtime's handle table and then
    the compiler runtime's table only when that runtime is not the java
    runtime.  No table is touched twice; exactly one table is touched when
    the two roles alias one runtime, two when the runtimes are distinct.
    [do_unloading(false)] leaves the state as it is. *)
Theorem metadata_bridge_fanout (f : positive) (s : VM) :
  wf_vm s = true ->
  ∃ tables : list addr,
    tables = option_list (table_of s (_java_runtime s))
             ++ (if bool_decide (_compiler_runtime s = _java_runtime s) then []
                 else option_list (table_of s (_compiler_runtime s)))
    ∧ metadata_do f s = Ret tt (append_effects (map (fun t => EMetadataDo t f) tables) s)
    ∧ do_unloading true s = Ret tt (append_effects (map EDoUnloading tables) s)
    ∧ do_unloading false s = Ret tt s
    ∧ NoDup tables
    ∧ (_compiler_runtime s = _java_runtime s -> _java_runtime s ≠ NULL ->
       length tables = 1%nat)
    ∧ (_compiler_runtime s ≠ _java_runtime s -> _java_runtime s ≠ NULL ->
       _compiler_runtime s ≠ NULL -> length tables = 2%nat).
Proof.
  intros (Hc & Hj & _ & _ & Hd)%wf_vm_inv.
  eexists; split; [reflexivity|].
  unfold metadata_do, do_unloading. munfold.
  destruct (_java_runtime s) as [j|] eqn:Ej; simpl.
  - destruct (is_runtime_table s (Some j) Hj) as [tj Htj]; [done|].
    rewrite (handles_metadata_do_ok _ _ _ _ Htj), (handles_do_unloading_ok _ _ _ Htj).
    simpl. rewrite Htj, Ej. simpl.
    destruct (_compiler_runtime s) as [c|] eqn:Ec; simpl.
    + destruct (is_runtime_table s (Some c) Hc) as [tc Htc]; [done|].
      destruct (decide (Some c = Some j)) as [E|NE].
      * rewrite bool_decide_eq_false_2 by (intros ?; done).
        rewrite bool_decide_eq_true_2 by done. simpl.
        repeat split; try done. apply NoDup_singleton.
      * rewrite bool_decide_eq_true_2 by done.
        rewrite bool_decide_eq_false_2 by done.
        rewrite (handles_metadata_do_ok (add_effect _ s) (Some c) tc f) by done.
        rewrite (handles_do_unloading_ok (add_effect _ s) (Some c) tc) by done.
        rewrite Htc. simpl. unfold add_effect. rewrite !append_effects_app. simpl.
        repeat split; try done.
        destruct Hd as [Hd|Hd]; [done|]. rewrite Htc, Htj in Hd.
        apply NoDup_cons. split; [|apply NoDup_singleton].
        rewrite list_elem_of_singleton. congruence.
    + repeat split; try done. apply NoDup_singleton.
  - rewrite Ej. simpl.
    destruct (_compiler_runtime s) as [c|] eqn:Ec; simpl.
    + destruct (is_runtime_table s (Some c) Hc) as [tc Htc]; [done|].
      rewrite (handles_metadata_do_ok _ _ _ _ Htc), (handles_do_unloading_ok _ _ _ Htc).
      rewrite Htc. simpl.
      repeat split; try done. apply NoDup_singleton.
    + rewrite append_effects_nil.
      repeat split; try done. apply NoDup_nil_2.
Qed.

Lemma metadata_bridge_fanout_witness :
  wf_vm vm_dual = true
  ∧ ∃ tables : list addr,
      metadata_do 5 vm_dual
      = Ret tt (append_effects (map (fun t => EMetadataDo t 5%positive) tables) vm_dual)
      ∧ length tables = 2%nat.
Proof.
  split; [reflexivity|].
  destruct (metadata_bridge_fanout 5 vm_dual eq_refl)
    as (tables & _ & Hdo & _ & _ & _ & _ & Htwo).
  exists tables. split; [exact Hdo|].
  apply Htwo; vm_compute; discriminate.
Defined.

(** ** The compilation tick counter *)

Lemma compilation_tick_returns_argument (thread r : Thread) (s s' : VM) :
  compilation_tick thread s = Ret r s' -> r = thread.
Proof.
  unfold compilation_tick, bind, ret.
  destruct (_ s) as [u s1|e s1]; [|done]. by intros [= <- _].
Qed.

Lemma compilation_tick_bound (thread : Thread) (s : VM) :
  thread_ok s thread = true ->
  ∃ s', compilation_tick thread s = Ret thread s'
    ∧ match bound_state s thread with
      | Some a =>
          ∃ n, ticks_at s a = Some n
               ∧ ticks_at s' a = Some (n + 1)
               ∧ (∀ b, b ≠ a -> heap s' !! b = heap s !! b)
               ∧ s' = set_heap (heap s') s
      | None => s' = s
      end.
Proof.
  unfold thread_ok, bound_state, compilation_tick, inc_compilation_ticks.
  destruct (is_Compiler_thread thread); simpl; [|by eexists].
  destruct (task thread) as [t|]; simpl; [|by eexists].
  unfold bind at 1 2. unfold deref_task.
  destruct (heap s !! t) as [[| | |ct|]|] eqn:Ht; try done.
  destruct (blocking_jvmci_compile_state ct) as [a|]; simpl; [|by eexists].
  intros [n Hn]%bool_decide_eq_true. unfold ticks_at in Hn.
  unfold bind, deref_state, update, ret; simpl.
  destruct (heap s !! a) as [[| | | |c]|] eqn:Ha; try done.
  injection Hn as Hn. eexists; split; [reflexivity|].
  exists n. simpl. unfold ticks_at. simpl.
  rewrite lookup_insert_eq. simpl. rewrite Hn.
  repeat split; try done.
  - by rewrite Ha, Hn.
  - intros b Hb. by rewrite lookup_insert_ne.
Qed.

(** C9. Whenever [compilation_tick] returns, it returns the thread it was
    given.  For a thread whose task and compile-state pointers are NULL or
    valid it does return, and: when the thread is a compiler thread bound
    to a task that has a blocking compile state, the tick counter of that
    state goes up by exactly one and every other object is left as it is;
    in every other case the whole state, and so every counter, is
    unchanged. *)
Theorem compilation_tick_counts (thread : Thread) (s : VM) :
  (∀ r s', compilation_tick thread s = Ret r s' -> r = thread)
  ∧ (thread_ok s thread = true ->
     ∃ s', compilation_tick thread s = Ret thread s'
       ∧ match bound_state s thread with
         | Some a =>
             ∃ n, ticks_at s a = Some n
                  ∧ ticks_at s' a = Some (n + 1)
                  ∧ (∀ b, b ≠ a -> heap s' !! b = heap s !! b)
                  ∧ s' = set_heap (heap s') s
         | None => s' = s
         end).
Proof.
  split.
  - intros r s'. apply compilation_tick_returns_argument.
  - apply compilation_tick_bound.
Qed.

Lemma compilation_tick_counts_witness :
  thread_ok vm_compiling compiler_thread = true
  ∧ ∃ s', compilation_tick compiler_thread vm_compiling = Ret compiler_thread s'
          ∧ ticks_at s' 11%positive = Some 42 ∧ ticks_at s' 12%positive = Some 7.
Proof.
  split; [reflexivity|].
  destruct (proj2 (compilation_tick_counts compiler_thread vm_compiling) eq_refl)
    as (s' & Hrun & Hbound).
  exists s'. split; [exact Hrun|].
  change (bound_state vm_compiling compiler_thread) with (Some 11%positive) in Hbound.
  destruct Hbound as (n & Hn & Hn' & Hother & _).
  vm_compute in Hn. injection Hn as <-.
  split; [exact Hn'|].
  unfold ticks_at. by rewrite (Hother 12%positive).
Defined.

(** ** Global initialisation *)

Lemma insert_fresh_subseteq (h h' : gmap addr Object) (a : addr) (o : Object) :
  h ⊆ h' -> a ∉ dom h' -> h ⊆ <[a := o]> h'.
Proof.
  intros Hsub Ha. etrans; [exact Hsub|]. by apply insert_subseteq, not_elem_of_dom.
Qed.

Lemma new_spec (o : Object) (s : VM) :
  ∃ a, new o s = Ret a (set_heap (<[a := o]> (heap s)) s) ∧ a ∉ dom (heap s).
Proof. eexists. split; [reflexivity|]. apply is_fresh. Qed.

Lemma new_JVMCIRuntime_spec (id : Z) (s : VM) :
  ∃ t a,
    new_JVMCIRuntime id s
    = Ret a (set_heap (<[a := OJVMCIRuntime {| _id := id; _metadata_handles := Some t |}]>
                       (<[t := OMetadataHandles]> (heap s))) s)
    ∧ (t ∉ dom (heap s)) ∧ (a ∉ dom (heap s)) ∧ a ≠ t.
Proof.
  unfold new_JVMCIRuntime, bind.
  destruct (new_spec OMetadataHandles s) as (t & -> & Ht).
  destruct (new_spec (OJVMCIRuntime {| _id := id; _metadata_handles := Some t |})
              (set_heap (<[t := OMetadataHandles]> (heap s)) s)) as (a & -> & Ha).
  simpl in Ha. rewrite dom_insert_L, not_elem_of_union, not_elem_of_singleton in Ha.
  exists t, a. split; [reflexivity|]. tauto.
Qed.

Lemma initialize_runtimes_dual (flags : Flags) (s1 : VM) :
  UseJVMCINativeLibrary flags = true ->
  ∃ s' c j,
    initialize_runtimes flags s1 = Ret tt s'
    ∧ _compiler_runtime s' = Some c ∧ _java_runtime s' = Some j ∧ c ≠ j
    ∧ role_of s' (Some c) = Some 0 ∧ role_of s' (Some j) = Some (-1)
    ∧ (c ∉ dom (heap s1)) ∧ (j ∉ dom (heap s1))
    ∧ _events s' = _events s1 ∧ _verbose_events s' = _verbose_events s1
    ∧ heap s1 ⊆ heap s'.
Proof.
  intros Hdual. unfold initialize_runtimes. rewrite Hdual.
  destruct (new_JVMCIRuntime_spec 0 s1) as (tc & c & Hc & Htc & Hcn & Hctc).
  unfold bind at 1. rewrite Hc. unfold bind at 1. unfold update at 1.
  match goal with |- context [bind _ _ ?s] => set (s2 := s) end.
  destruct (new_JVMCIRuntime_spec (-1) s2) as (tj & j & Hj & Htj & Hjn & Hjtj).
  unfold bind. rewrite Hj. unfold update.
  subst s2. simpl in *. rewrite !dom_insert_L in *.
  apply not_elem_of_union in Htj as [Htj1 Htj2].
  apply not_elem_of_union in Htj2 as [Htj2 Htj3].
  apply not_elem_of_union in Hjn as [Hjn1 Hjn2].
  apply not_elem_of_union in Hjn2 as [Hjn2 Hjn3].
  rewrite not_elem_of_singleton in Htj1, Htj2, Hjn1, Hjn2.
  eexists _, c, j. split; [reflexivity|]. simpl.
  repeat split; try done.
  - by rewrite lookup_insert_ne, lookup_insert_ne, lookup_insert_eq.
  - by rewrite lookup_insert_eq.
  - repeat (apply insert_fresh_subseteq;
            [|rewrite ?dom_insert_L, ?not_elem_of_union, ?not_elem_of_singleton; done]).
    done.
Qed.

Lemma initialize_runtimes_single (flags : Flags) (s1 : VM) :
  UseJVMCINativeLibrary flags = false ->
  ∃ s' c,
    initialize_runtimes flags s1 = Ret tt s'
    ∧ _compiler_runtime s' = Some c ∧ _java_runtime s' = Some c
    ∧ role_of s' (Some c) = Some 0
    ∧ (c ∉ dom (heap s1))
    ∧ _events s' = _events s1 ∧ _verbose_events s' = _verbose_events s1
    ∧ heap s1 ⊆ heap s'.
Proof.
  intros Hsingle. unfold initialize_runtimes. rewrite Hsingle.
  destruct (new_JVMCIRuntime_spec 0 s1) as (tc & c & Hc & Htc & Hcn & Hctc).
  unfold bind at 1. rewrite Hc. unfold bind, update, read. simpl.
  eexists _, c. split; [reflexivity|]. simpl.
  repeat split; try done.
  - by rewrite lookup_insert_eq.
  - repeat (apply insert_fresh_subseteq;
            [|rewrite ?dom_insert_L, ?not_elem_of_union, ?not_elem_of_singleton; done]).
    done.
Qed.

Lemma wrap_int_id (z : Z) : INT_MIN <= z <= INT_MAX -> wrap_int z = z.
Proof.
  unfold INT_MIN, INT_MAX, wrap_int. intros H.
  rewrite Z.mod_small by lia. lia.
Qed.

(** The loop multiplies by ten once for each [i] from the start value up
    to the smaller of the configured level and [max_EventLog_level]. *)
Lemma expand_count_spec (flags : Flags) (os : Platform) (n : nat) :
  ∀ i count,
    let m := Z.min (JVMCIEventLogLevel flags) (max_EventLog_level os) in
    Z.of_nat n = m - i ->
    0 <= count -> count * 10 ^ (m - i) <= INT_MAX ->
    expand_count flags os i count = count * 10 ^ (m - i).
Proof.
  induction n as [|n IH]; intros i count m Hn Hcount Hfit; simp expand_count.
  - destruct (decide _) as [Hlt|Hge]; simpl; [lia|].
    replace (m - i) with 0 by lia. lia.
  - destruct (decide _) as [Hlt|Hge]; simpl; [|lia].
    assert (Hpow : 10 ^ (m - i) = 10 * 10 ^ (m - (i + 1))).
    { replace (m - i) with (Z.succ (m - (i + 1))) by lia.
      rewrite Z.pow_succ_r by lia. reflexivity. }
    assert (Hpos : 0 < 10 ^ (m - (i + 1))) by (apply Z.pow_pos_nonneg; lia).
    assert (Hstep : wrap_int (count * 10) = count * 10).
    { apply wrap_int_id. unfold INT_MIN. rewrite Hpow in Hfit. nia. }
    rewrite Hstep.
    rewrite (IH (i + 1) (count * 10)); fold m; lia.
Qed.

Lemma initialize_event_logs_spec (flags : Flags) (os : Platform) (s : VM) :
  ∃ s1,
    initialize_event_logs flags os s = Ret tt s1
    ∧ heap s ⊆ heap s1
    ∧ s1 = set_heap (heap s1) (set_events (_events s1)
             (set_verbose_events (_verbose_events s1) s))
    ∧ (if LogEvents flags && (0 <? JVMCIEventLogLevel flags)
       then is_log s1 (_events s1) = true
       else _events s1 = _events s)
    ∧ (if LogEvents flags && (1 <? JVMCIEventLogLevel flags)
       then ∃ v, _verbose_events s1 = Some v
                 ∧ heap s1 !! v
                   = Some (OStringEventLog
                       {| el_name := "Verbose JVMCI Events"; el_handle := "verbose-jvmci";
                          el_count := expand_count flags os 1
                                        (wrap_int (LogEventsBufferEntries flags)) |})
       else _verbose_events s1 = _verbose_events s).
Proof.
  unfold initialize_event_logs.
  assert (Hid : s = set_heap (heap s) (set_events (_events s)
                      (set_verbose_events (_verbose_events s) s))) by by destruct s.
  destruct (LogEvents flags); simpl; [|by exists s].
  destruct (0 <? JVMCIEventLogLevel flags) eqn:H0; simpl.
  2:{ replace (1 <? JVMCIEventLogLevel flags) with false by lia. by exists s. }
  unfold new_StringEventLog, bind at 1.
  destruct (new_spec (OStringEventLog
              {| el_name := "JVMCI Events"; el_handle := "jvmci";
                 el_count := wrap_int (LogEventsBufferEntries flags) |}) s)
    as (e & -> & He).
  unfold bind at 1, update at 1.
  destruct (1 <? JVMCIEventLogLevel flags) eqn:H1.
  - match goal with |- context [bind (new ?o) _ ?s] =>
      destruct (new_spec o s) as (v & Hv & Hvd); unfold bind; rewrite Hv end.
    simpl in Hvd. rewrite dom_insert_L, not_elem_of_union, not_elem_of_singleton in Hvd.
    unfold update. eexists. split; [reflexivity|]. simpl.
    repeat split.
    + repeat (apply insert_fresh_subseteq;
        [|rewrite ?dom_insert_L, ?not_elem_of_union, ?not_elem_of_singleton; done]).
      done.
    + unfold is_log. simpl. rewrite lookup_insert_ne by tauto.
      by rewrite lookup_insert_eq.
    + exists v. by rewrite lookup_insert_eq.
  - eexists. split; [reflexivity|]. simpl.
    repeat split.
    + by apply insert_fresh_subseteq.
    + unfold is_log. simpl. by rewrite lookup_insert_eq.
Qed.

Lemma initialize_globals_unfold (flags : Flags) (os : Platform) (s : VM) :
  initialize_globals flags os s
  = bind (initialize_event_logs flags os) (fun _ => initialize_runtimes flags) s.
Proof. reflexivity. Qed.

(** C7. With logging enabled and a configured level [L > 1],
    [initialize_globals] constructs the verbose channel with capacity
    [B * 10 ^ (min L max - 1)], where [B] is [LogEventsBufferEntries] and
    [max] is [max_EventLog_level]: ten times per level above 1, the
    exponent stopping at [max - 1].  [B] is a valid buffer size and the
    product fits the [int] that holds it. *)
Theorem verbose_channel_capacity (flags : Flags) (os : Platform) (s : VM) :
  LogEvents flags = true ->
  1 < JVMCIEventLogLevel flags ->
  1 <= max_EventLog_level os ->
  0 <= LogEventsBufferEntries flags ->
  LogEventsBufferEntries flags
    * 10 ^ (Z.min (JVMCIEventLogLevel flags - 1) (max_EventLog_level os - 1)) <= INT_MAX ->
  ∃ s' v log,
    initialize_globals flags os s = Ret tt s'
    ∧ _verbose_events s' = Some v
    ∧ heap s' !! v = Some (OStringEventLog log)
    ∧ el_name log = "Verbose JVMCI Events"%string
    ∧ el_count log
      = LogEventsBufferEntries flags
        * 10 ^ (Z.min (JVMCIEventLogLevel flags - 1) (max_EventLog_level os - 1)).
Proof.
  intros Hlog HL Hmax HB Hfit.
  set (e := Z.min (JVMCIEventLogLevel flags - 1) (max_EventLog_level os - 1)) in *.
  assert (He : e = Z.min (JVMCIEventLogLevel flags) (max_EventLog_level os) - 1)
    by (unfold e; lia).
  destruct (initialize_event_logs_spec flags os s) as (s1 & Hrun1 & _ & _ & _ & Hv).
  rewrite Hlog in Hv. replace (1 <? JVMCIEventLogLevel flags) with true in Hv by lia.
  simpl in Hv. destruct Hv as (v & Hv & Hobj).
  assert (Hpos : 0 < 10 ^ e) by (apply Z.pow_pos_nonneg; lia).
  assert (HB' : wrap_int (LogEventsBufferEntries flags) = LogEventsBufferEntries flags).
  { apply wrap_int_id. unfold INT_MIN. nia. }
  rewrite HB' in Hobj.
  rewrite (expand_count_spec flags os (Z.to_nat e)) in Hobj; try lia.
  2:{ rewrite <- He. exact Hfit. }
  rewrite <- He in Hobj.
  rewrite initialize_globals_unfold. rewrite (bind_ret_l _ _ _ _ _ Hrun1).
  destruct (UseJVMCINativeLibrary flags) eqn:Hmode.
  - destruct (initialize_runtimes_dual flags s1 Hmode)
      as (s' & c & j & -> & _ & _ & _ & _ & _ & _ & _ & _ & Hve & Hsub).
    eexists s', v, _. split; [reflexivity|].
    split; [by rewrite Hve|].
    split; [exact (lookup_weaken _ _ _ _ Hobj Hsub)|]. done.
  - destruct (initialize_runtimes_single flags s1 Hmode)
      as (s' & c & -> & _ & _ & _ & _ & _ & Hve & Hsub).
    eexists s', v, _. split; [reflexivity|].
    split; [by rewrite Hve|].
    split; [exact (lookup_weaken _ _ _ _ Hobj Hsub)|]. done.
Qed.

Lemma verbose_channel_capacity_witness :
  ∃ s' v log,
    initialize_globals flags_dual os_good initial_VM = Ret tt s'
    ∧ _verbose_events s' = Some v
    ∧ heap s' !! v = Some (OStringEventLog log)
    ∧ el_name log = "Verbose JVMCI Events"%string
    ∧ el_count log = 20 * 10 ^ (Z.min (3 - 1) (4 - 1)).
Proof.
  apply (verbose_channel_capacity flags_dual os_good initial_VM);
    first [reflexivity | by vm_compute].
Defined.

(** ** The event log and the trace *)

Lemma new_effects_append (es : list Effect) (s : VM) :
  new_effects s (append_effects es s) = es.
Proof. unfold new_effects. simpl. by rewrite drop_app_length. Qed.

Lemma new_effects_same (s : VM) : new_effects s s = [].
Proof. unfold new_effects. by rewrite drop_all. Qed.

Lemma is_log_Some (s : VM) (p : ptr) :
  is_log s p = true -> ∃ a l, p = Some a ∧ heap s !! a = Some (OStringEventLog l).
Proof.
  unfold is_log. destruct p as [a|]; [|done].
  destruct (heap s !! a) as [[]|] eqn:Ha; try done. eauto.
Qed.

(** [vlog] with its gate closed does nothing. *)
Lemma vlog_closed (flags : Flags) (current : option Thread) (level : Z)
    (msg : string) (s : VM) :
  log_gate flags level = false -> vlog flags current level msg s = Ret tt s.
Proof. unfold log_gate, vlog. by intros ->. Qed.

(** [vlog] with its gate open and the selected channel constructed appends
    one entry to that channel. *)
Lemma vlog_open (flags : Flags) (current : option Thread) (level : Z)
    (msg : string) (s : VM) (a : addr) :
  log_gate flags level = true ->
  selected_channel level s = Some a ->
  is_log s (Some a) = true ->
  vlog flags current level msg s
  = Ret tt (add_effect (ELogv a (thread_id <$> current) msg) s).
Proof.
  unfold log_gate, vlog, selected_channel. intros -> Hsel Hlog.
  apply is_log_Some in Hlog as (a' & l & [= <-] & Ha).
  unfold bind, read, guarantee, deref_log, emit, update, ret.
  destruct (level =? 1); rewrite Hsel; simpl; by rewrite Ha.
Qed.

(** [vlog] with its gate open and the selected channel NULL fails its
    [guarantee]. *)
Lemma vlog_null (flags : Flags) (current : option Thread) (level : Z)
    (msg : string) (s : VM) :
  log_gate flags level = true ->
  selected_channel level s = NULL ->
  vlog flags current level msg s
  = Stop (GuaranteeFailed "JVMCI event log not yet initialized") s.
Proof.
  unfold log_gate, vlog, selected_channel. intros -> Hsel.
  unfold bind, read, guarantee, abort.
  destruct (level =? 1); by rewrite Hsel.
Qed.

(** [vtrace] writes one line, in two pieces, when its gate is open. *)
Lemma vtrace_spec (flags : Flags) (current : option Thread) (level : Z)
    (msg : string) (s : VM) :
  ∃ prefix,
    vtrace flags current level msg s
    = Ret tt (append_effects
                (if level <=? JVMCITraceLevel flags
                 then [ETtyPrint prefix; ETtyPrintCr msg] else []) s).
Proof.
  unfold vtrace. destruct (level <=? JVMCITraceLevel flags).
  - destruct current as [t|]; eexists; unfold bind, emit, update, add_effect;
      by rewrite append_effects_app.
  - exists ""%string. by rewrite append_effects_nil.
Qed.

(** What [event] adds when the channel it needs is there. *)
Lemma event_ready (flags : Flags) (current : option Thread) (level : Z)
    (msg : string) (s : VM) :
  channel_ready flags level s = true ->
  ∃ prefix,
    event flags current level msg s
    = Ret tt (append_effects
                ((if log_gate flags level
                  then match selected_channel level s with
                       | Some a => [ELogv a (thread_id <$> current) msg]
                       | None => []
                       end
                  else [])
                 ++ (if level <=? JVMCITraceLevel flags
                     then [ETtyPrint prefix; ETtyPrintCr msg] else [])) s).
Proof.
  unfold channel_ready, event, LOG_TRACE. intros Hready.
  destruct (log_gate flags level) eqn:Hgate; simpl in Hready.
  - destruct (is_log_Some _ _ Hready) as (a & l & Hsel & Ha).
    rewrite Hsel in Hready.
    rewrite (bind_ret_l _ _ _ _ _ (vlog_open flags current level msg s a Hgate Hsel Hready)).
    destruct (vtrace_spec flags current level msg
                (add_effect (ELogv a (thread_id <$> current) msg) s)) as (prefix & ->).
    exists prefix. rewrite Hsel. unfold add_effect. by rewrite append_effects_app.
  - rewrite (bind_ret_l _ _ _ _ _ (vlog_closed flags current level msg s Hgate)).
    destruct (vtrace_spec flags current level msg s) as (prefix & ->).
    by exists prefix.
Qed.

(** With both levels below 1 a level-1 event does nothing, so a guard on
    the two levels in front of [event1], as a macro may have, changes
    nothing. *)
Lemma event1_quiet (flags : Flags) (current : option Thread) (msg : string) (s : VM) :
  JVMCITraceLevel flags < 1 -> JVMCIEventLogLevel flags < 1 ->
  event1 flags current msg s = Ret tt s.
Proof.
  intros Htrace Hlog. unfold event1, LOG_TRACE, bind, vlog, vtrace.
  replace (1 <=? JVMCIEventLogLevel flags) with false by lia.
  replace (1 <=? JVMCITraceLevel flags) with false by lia.
  by rewrite andb_false_r.
Qed.

Lemma log_gate_true (flags : Flags) (level : Z) :
  log_gate flags level = true
  ↔ LogEvents flags = true ∧ level <= JVMCIEventLogLevel flags.
Proof. unfold log_gate. rewrite andb_true_iff, Z.leb_le. done. Qed.

Ltac list_facts :=
  unfold logged, traced;
  repeat setoid_rewrite elem_of_cons; repeat setoid_rewrite elem_of_nil;
  naive_solver.

(** C6, as amended.  For a call of [event] (or of the pair [vlog],
    [vtrace]) at level [L] that finds the channel it selects constructed
    (or its log gate closed): an entry is appended if and only if logging
    is enabled and the configured log level is at least [L], it goes to
    the coarse channel for [L = 1] and to the verbose channel otherwise,
    and a trace line is written if and only if the configured trace level
    is at least [L].  When the log gate is open and the selected channel
    is NULL, the call stops at [guarantee]: nothing is appended and
    nothing is traced, whatever the trace level. *)
Theorem event_recorded_when_ready (flags : Flags) (current : option Thread)
    (level : Z) (msg : string) (s : VM) :
  (channel_ready flags level s = true ->
   ∃ es,
     event flags current level msg s = Ret tt (append_effects es s)
     ∧ recorded_iff_enabled flags current level msg s
     ∧ (∀ a th m, ELogv a th m ∈ es ->
          selected_channel level s = Some a ∧ th = thread_id <$> current ∧ m = msg)
     ∧ (length (List.filter is_logv es) <= 1)%nat)
  ∧ (log_gate flags level = true -> selected_channel level s = NULL ->
     event flags current level msg s
     = Stop (GuaranteeFailed "JVMCI event log not yet initialized") s).
Proof.
  split.
  - intros Hready.
    destruct (event_ready flags current level msg s Hready) as (prefix & Hrun).
    eexists. split; [exact Hrun|].
    unfold recorded_iff_enabled. rewrite Hrun. simpl. rewrite new_effects_append.
    unfold channel_ready in Hready.
    rewrite <- log_gate_true, <- Z.leb_le.
    destruct (log_gate flags level) eqn:Hgate; simpl in Hready;
      [destruct (is_log_Some _ _ Hready) as (a & l & Hsel & Ha); rewrite Hsel|];
      destruct (level <=? JVMCITraceLevel flags); simpl;
      (split; [split; split; list_facts
              |split; [intros ? ? ?; list_facts | lia]]).
  - intros Hgate Hsel. unfold event, LOG_TRACE.
    by rewrite (bind_stop _ _ _ _ _ (vlog_null flags current level msg s Hgate Hsel)).
Qed.

Lemma event_before_initialize_counterexample :
  ¬ recorded_iff_enabled flags_single (Some main_thread) 1 "x" initial_VM.
Proof.
  unfold recorded_iff_enabled. intros [Hlog _].
  destruct Hlog as [_ Hlog].
  destruct Hlog as (e & He & _); [split; [reflexivity|by vm_compute]|].
  vm_compute in He. by apply elem_of_nil in He.
Qed.

Lemma event_recorded_when_ready_witness :
  (channel_ready flags_single 1 vm_single = true
   ∧ recorded_iff_enabled flags_single (Some main_thread) 1 "x" vm_single)
  ∧ (log_gate flags_single 1 = true ∧ selected_channel 1 initial_VM = NULL
     ∧ event flags_single (Some main_thread) 1 "x" initial_VM
       = Stop (GuaranteeFailed "JVMCI event log not yet initialized") initial_VM).
Proof.
  split.
  - split; [reflexivity|].
    destruct (proj1 (event_recorded_when_ready flags_single (Some main_thread) 1 "x"
                       vm_single) eq_refl) as (es & _ & Hiff & _).
    exact Hiff.
  - split; [reflexivity|]. split; [reflexivity|].
    apply (proj2 (event_recorded_when_ready flags_single (Some main_thread) 1 "x"
                    initial_VM)); reflexivity.
Defined.

(** Whatever [event] does, it only adds log entries and trace output. *)
Lemma event_final (flags : Flags) (current : option Thread) (level : Z)
    (msg : string) (s : VM) :
  ∃ es, final_state (event flags current level msg s) = append_effects es s
        ∧ Forall (fun e => is_logv e || is_tty e = true) es.
Proof.
  unfold event, LOG_TRACE, bind.
  assert (Hv : ∃ e1, final_state (vlog flags current level msg s) = append_effects e1 s
                     ∧ Forall (fun e => is_logv e || is_tty e = true) e1
                     ∧ ∀ u s', vlog flags current level msg s = Ret u s' ->
                               s' = append_effects e1 s).
  { unfold vlog, bind, read, guarantee, deref_log, emit, update, ret, abort.
    destruct (LogEvents flags && (level <=? JVMCIEventLogLevel flags)).
    - destruct (level =? 1);
        match goal with |- context [is_null ?p] => destruct p as [a|] end; simpl.
      all: try (exists []; rewrite append_effects_nil; by repeat split).
      all: destruct (heap s !! a) as [[]|]; simpl;
          try (exists []; rewrite append_effects_nil; by repeat split).
      all: eexists [_]; (split; [reflexivity|]); (split; [by repeat constructor|]);
        by intros u s' [= <-].
    - exists []. rewrite append_effects_nil. split; [done|]. split; [done|].
      by intros u s' [= <-]. }
  destruct Hv as (e1 & Hfin & He1 & Hret).
  destruct (vlog flags current level msg s) as [u s'|e s'] eqn:Hvlog; simpl in *.
  - destruct (vtrace_spec flags current level msg s') as (prefix & ->). simpl.
    rewrite Hfin, append_effects_app. eexists. split; [reflexivity|].
    apply Forall_app. split; [done|].
    destruct (level <=? JVMCITraceLevel flags); by repeat constructor.
  - by exists e1.
Qed.

(** ** Shutdown *)

Lemma JVMCIRuntime_shutdown_ok (s : VM) (a : addr) :
  is_runtime s (Some a) = true ->
  JVMCIRuntime_shutdown (Some a) s = Ret tt (add_effect (ERuntimeShutdown a) s).
Proof.
  unfold is_runtime. intros [t Ht]%bool_decide_eq_true.
  apply table_of_Some in Ht as (a' & r & [= <-] & Ha & _).
  unfold JVMCIRuntime_shutdown. by rewrite Ha.
Qed.

(** Phase 2 of [shutdown], from the state [s3] the unlock leaves. *)
Lemma shutdown_phase2 (s3 : VM) :
  wf_vm s3 = true ->
  (_java_runtime s3 = NULL -> _compiler_runtime s3 = NULL) ->
  (java_runtime <- read _java_runtime ;;
   c <- compiler_runtime ;;
   (if bool_decide (java_runtime ≠ c) then JVMCIRuntime_shutdown java_runtime
    else ret tt) ;;;
   c <- compiler_runtime ;;
   if negb (is_null c) then JVMCIRuntime_shutdown c else ret tt) s3
  = Ret tt (append_effects (runtime_shutdowns s3) s3).
Proof.
  intros (Hc & Hj & _)%wf_vm_inv Hnull.
  unfold runtime_shutdowns, compiler_runtime. unfold bind at 1 2. unfold read at 1 2.
  destruct (_java_runtime s3) as [j|] eqn:Ej.
  - destruct (_compiler_runtime s3) as [c|] eqn:Ec.
    + destruct (decide (j = c)) as [->|Hne].
      * rewrite bool_decide_eq_false_2 by (intros ?; done).
        rewrite bool_decide_eq_true_2 by done.
        unfold bind, ret, read. rewrite Ec. simpl.
        by rewrite JVMCIRuntime_shutdown_ok.
      * rewrite bool_decide_eq_true_2 by congruence.
        rewrite bool_decide_eq_false_2 by congruence.
        unfold bind. rewrite JVMCIRuntime_shutdown_ok by done.
        unfold read. simpl. rewrite Ec. simpl.
        rewrite JVMCIRuntime_shutdown_ok by done.
        unfold add_effect. by rewrite append_effects_app.
    + rewrite bool_decide_eq_true_2 by done.
      rewrite bool_decide_eq_false_2 by done.
      unfold bind. rewrite JVMCIRuntime_shutdown_ok by done.
      unfold read. simpl. rewrite Ec. simpl. done.
  - rewrite Hnull by done.
    rewrite bool_decide_eq_false_2 by (intros ?; done).
    rewrite bool_decide_eq_true_2 by done.
    unfold bind, ret, read. rewrite Hnull by done. simpl.
    by rewrite append_effects_nil.
Qed.

Lemma shutdown_run (flags : Flags) (t : Thread) (s : VM) :
  JVMCI_lock_owner s = None ->
  channel_ready flags 1 s = true ->
  wf_vm s = true ->
  (_java_runtime s = NULL -> _compiler_runtime s = NULL) ->
  ∃ es,
    event1 flags (Some t) "shutting down JVMCI" (shutdown_flagged t s)
    = Ret tt (append_effects es (shutdown_flagged t s))
    ∧ Forall (fun e => is_logv e || is_tty e = true) es
    ∧ shutdown flags (Some t) s
      = Ret tt (append_effects (es ++ [EUnlock] ++ runtime_shutdowns s)
                  (set_lock_owner None (shutdown_flagged t s))).
Proof.
  intros Hfree Hready Hwf Hnull.
  destruct (event_ready flags (Some t) 1 "shutting down JVMCI" (shutdown_flagged t s) Hready)
    as (prefix & Hev).
  eexists. split; [exact Hev|]. split.
  - apply Forall_app. split.
    + destruct (log_gate flags 1); [|constructor].
      destruct (selected_channel 1 (shutdown_flagged t s)); repeat constructor.
    + destruct (1 <=? JVMCITraceLevel flags); repeat constructor.
  - unfold shutdown.
    unfold bind at 1. unfold MutexLocker_lock. rewrite Hfree.
    unfold bind at 1. unfold update at 1.
    unfold bind at 1. unfold emit at 1, update at 1.
    unfold bind at 1. unfold JVMCI_event_1.
    change (event1 flags (Some t) "shutting down JVMCI"
              (add_effect (EStoreInShutdown true)
                 (set_in_shutdown true
                    (add_effect ELock (set_lock_owner (Some (thread_id t)) s)))))
      with (event flags (Some t) 1 "shutting down JVMCI" (shutdown_flagged t s)).
    rewrite Hev.
    unfold bind at 1. unfold MutexLocker_unlock.
    match goal with |- _ ?s3 = _ => rewrite (shutdown_phase2 s3 Hwf Hnull) end.
    f_equal. unfold append_effects, add_effect, set_lock_owner, runtime_shutdowns. simpl.
    f_equal. by rewrite <- !app_assoc.
Qed.

Lemma shutdowns_of_app (a : addr) (es1 es2 : list Effect) :
  shutdowns_of a (es1 ++ es2) = (shutdowns_of a es1 + shutdowns_of a es2)%nat.
Proof. apply count_occ_app. Qed.

Lemma shutdowns_of_log_tty (a : addr) (es : list Effect) :
  Forall (fun e => is_logv e || is_tty e = true) es -> shutdowns_of a es = 0%nat.
Proof.
  induction 1 as [|e es He _ IH]; [done|].
  unfold shutdowns_of in *. simpl. destruct (Effect_eq_dec e (ERuntimeShutdown a)) as [->|]; done.
Qed.

Lemma shutdowns_of_cons (a b : addr) (es : list Effect) :
  shutdowns_of a (ERuntimeShutdown b :: es)
  = ((if bool_decide (b = a) then 1 else 0) + shutdowns_of a es)%nat.
Proof.
  unfold shutdowns_of. case_bool_decide as Hab.
  - subst b. by rewrite count_occ_cons_eq.
  - rewrite count_occ_cons_neq by congruence. done.
Qed.

Lemma shutdowns_of_runtime_shutdowns (a : addr) (s : VM) :
  shutdowns_of a (runtime_shutdowns s)
  = if bool_decide (_java_runtime s = Some a ∨ _compiler_runtime s = Some a)
    then 1%nat else 0%nat.
Proof.
  unfold runtime_shutdowns.
  destruct (_java_runtime s) as [j|], (_compiler_runtime s) as [c|];
    repeat case_bool_decide; simpl; rewrite ?shutdowns_of_cons;
    repeat case_bool_decide; simpl; try done; naive_solver.
Qed.

Lemma new_effects_eq (s s' : VM) (d : list Effect) :
  effects s' = effects s ++ d -> new_effects s s' = d.
Proof. unfold new_effects. intros ->. by rewrite drop_app_length. Qed.

(** Phase 2 from any state, also one with invalid runtime pointers: what
    it adds contains at most one [shutdown()] per runtime. *)
Lemma shutdown_phase2_any (s4 : VM) :
  ∃ d,
    effects (final_state
      ((java_runtime <- read _java_runtime ;;
        c <- compiler_runtime ;;
        (if bool_decide (java_runtime ≠ c) then JVMCIRuntime_shutdown java_runtime
         else ret tt) ;;;
        c <- compiler_runtime ;;
        if negb (is_null c) then JVMCIRuntime_shutdown c else ret tt) s4))
    = effects s4 ++ d
    ∧ ∀ rt, (shutdowns_of rt d <= 1)%nat.
Proof.
  unfold compiler_runtime. unfold bind, read, ret, JVMCIRuntime_shutdown. cbv beta iota.
  case_bool_decide as Hne;
    destruct (_java_runtime s4) as [j|] eqn:Ej, (_compiler_runtime s4) as [c|] eqn:Ec;
    simpl; rewrite ?Ec; simpl;
    repeat (case_match; simpl; rewrite ?Ec; simpl); simplify_eq/=.
  all: first
    [ exists []; split; [by rewrite app_nil_r|intros rt; unfold shutdowns_of; simpl; lia]
    | eexists [_]; split; [reflexivity|];
      intros rt; rewrite shutdowns_of_cons; unfold shutdowns_of;
      case_bool_decide; simpl; lia
    | eexists [_; _]; split; [by rewrite <- app_assoc|];
      intros rt; rewrite !shutdowns_of_cons; unfold shutdowns_of;
      repeat case_bool_decide; simpl; try lia; congruence ].
Qed.

(** Whatever the state and the caller, one call of [shutdown] calls
    [shutdown()] on a runtime at most once. *)
Lemma shutdown_never_twice (flags : Flags) (current : option Thread) (s : VM) (rt : addr) :
  (shutdowns_of rt (new_effects s (final_state (shutdown flags current s))) <= 1)%nat.
Proof.
  unfold shutdown. unfold bind at 1. unfold MutexLocker_lock.
  destruct current as [t|]; cbv beta;
    [|simpl; rewrite new_effects_same; unfold shutdowns_of; simpl; lia].
  destruct (JVMCI_lock_owner s); cbv beta;
    [simpl; rewrite new_effects_same; unfold shutdowns_of; simpl; lia|].
  unfold bind at 1, update at 1. unfold bind at 1, emit at 1, update at 1.
  unfold bind at 1, JVMCI_event_1.
  match goal with |- context [event1 flags (Some t) ?m ?s2] =>
    destruct (event_final flags (Some t) 1 m s2) as (ev & Hfin & Hev);
    change (event1 flags (Some t) m s2) with (event flags (Some t) 1 m s2);
    destruct (event flags (Some t) 1 m s2) as [u s3|e s3]; simpl in Hfin; subst s3
  end.
  2:{ simpl. erewrite new_effects_eq by (simpl; by rewrite <- !app_assoc).
      rewrite !shutdowns_of_app, (shutdowns_of_log_tty rt ev Hev).
      unfold shutdowns_of. simpl. lia. }
  unfold bind at 1, MutexLocker_unlock.
  match goal with |- context [final_state (?m ?s4)] =>
    destruct (shutdown_phase2_any s4) as (d & Hd & Hcount) end.
  erewrite new_effects_eq by (rewrite Hd; simpl; by rewrite <- !app_assoc).
  rewrite !shutdowns_of_app, (shutdowns_of_log_tty rt ev Hev).
  specialize (Hcount rt). unfold shutdowns_of in *. simpl. lia.
Qed.

(** C3. [shutdown] runs in two phases.  Phase 1: it takes [JVMCI_lock],
    stores true to [_in_shutdown] and emits its level-1 event while the
    caller holds the lock.  Phase 2, after the lock is released: it calls
    [shutdown()] on the java runtime only if that is not the compiler
    runtime, and then on the compiler runtime if there is one.  Within one
    call no runtime is shut down more than once, also when both roles
    alias one runtime; this last part holds from every state. *)
Theorem shutdown_two_phases (flags : Flags) (s : VM) :
  (∀ current rt,
     (shutdowns_of rt (new_effects s (final_state (shutdown flags current s))) <= 1)%nat)
  ∧ ∀ t : Thread,
      JVMCI_lock_owner s = None ->
      channel_ready flags 1 s = true ->
      wf_vm s = true ->
      (_java_runtime s = NULL -> _compiler_runtime s = NULL) ->
      ∃ es s',
        shutdown flags (Some t) s = Ret tt s'
        ∧ event1 flags (Some t) "shutting down JVMCI" (shutdown_flagged t s)
          = Ret tt (append_effects es (shutdown_flagged t s))
        ∧ _in_shutdown (shutdown_flagged t s) = true
        ∧ JVMCI_lock_owner (shutdown_flagged t s) = Some (thread_id t)
        ∧ new_effects s s'
          = [ELock; EStoreInShutdown true] ++ es ++ [EUnlock]
            ++ (if bool_decide (_java_runtime s = _compiler_runtime s) then []
                else match _java_runtime s with
                     | Some j => [ERuntimeShutdown j]
                     | None => []
                     end)
            ++ match _compiler_runtime s with
               | Some c => [ERuntimeShutdown c]
               | None => []
               end
        ∧ Forall (fun e => is_logv e || is_tty e = true) es
        ∧ _in_shutdown s' = true
        ∧ JVMCI_lock_owner s' = None.
Proof.
  split; [intros; apply shutdown_never_twice|].
  intros t Hfree Hready Hwf Hnull.
  destruct (shutdown_run flags t s Hfree Hready Hwf Hnull) as (es & Hev & Hes & Hrun).
  exists es. eexists. split; [exact Hrun|].
  split; [exact Hev|]. split; [done|]. split; [done|].
  split; [|by split].
  apply new_effects_eq. simpl. by rewrite <- !app_assoc.
Qed.

Lemma shutdown_two_phases_witness :
  ∃ es s',
    shutdown flags_dual (Some main_thread) vm_dual = Ret tt s'
    ∧ new_effects vm_dual s'
      = [ELock; EStoreInShutdown true] ++ es
        ++ [EUnlock; ERuntimeShutdown 6%positive; ERuntimeShutdown 4%positive].
Proof.
  destruct (proj2 (shutdown_two_phases flags_dual vm_dual) main_thread)
    as (es & s' & Hrun & _ & _ & _ & Hnew & _); try reflexivity.
  { by vm_compute. }
  exists es, s'. split; [exact Hrun|]. exact Hnew.
Defined.


Lemma shutdown_twice_counterexample :
  ¬ second_shutdown_skips_aliased flags_single (Some main_thread) vm_single.
Proof.
  intros H. specialize (H 3%positive eq_refl eq_refl).
  vm_compute in H. discriminate H.
Qed.

(** C5, as amended.  A second call of [shutdown] returns normally and
    finds [_in_shutdown] already true; it does not read the flag, it
    stores true again.  A runtime that both roles alias is shut down
    exactly once by each call: once by the first and once more by the
    second, twice over the two calls. *)
Theorem shutdown_twice_aliased (flags : Flags) (t : Thread) (s : VM) (a : addr) :
  JVMCI_lock_owner s = None ->
  channel_ready flags 1 s = true ->
  wf_vm s = true ->
  _compiler_runtime s = Some a ->
  _java_runtime s = Some a ->
  ∃ s1 s2,
    shutdown flags (Some t) s = Ret tt s1
    ∧ _in_shutdown s1 = true
    ∧ shutdown flags (Some t) s1 = Ret tt s2
    ∧ _in_shutdown s2 = true
    ∧ EStoreInShutdown true ∈ new_effects s1 s2
    ∧ shutdowns_of a (new_effects s s1) = 1%nat
    ∧ shutdowns_of a (new_effects s1 s2) = 1%nat
    ∧ shutdowns_of a (new_effects s s2) = 2%nat.
Proof.
  intros Hfree Hready Hwf Hc Hj.
  assert (Hnull : _java_runtime s = NULL -> _compiler_runtime s = NULL) by congruence.
  destruct (shutdown_run flags t s Hfree Hready Hwf Hnull) as (es1 & _ & Hes1 & Hrun1).
  set (s1 := append_effects (es1 ++ [EUnlock] ++ runtime_shutdowns s)
               (set_lock_owner None (shutdown_flagged t s))) in *.
  destruct (shutdown_run flags t s1 eq_refl Hready Hwf Hnull) as (es2 & _ & Hes2 & Hrun2).
  set (s2 := append_effects (es2 ++ [EUnlock] ++ runtime_shutdowns s1)
               (set_lock_owner None (shutdown_flagged t s1))) in *.
  assert (Hrs : ∀ x, shutdowns_of a (runtime_shutdowns x) =
                     if bool_decide (_java_runtime x = Some a ∨ _compiler_runtime x = Some a)
                     then 1%nat else 0%nat) by (intros; apply shutdowns_of_runtime_shutdowns).
  assert (H1 : new_effects s s1
               = [ELock; EStoreInShutdown true] ++ es1 ++ [EUnlock] ++ runtime_shutdowns s).
  { apply new_effects_eq. subst s1. simpl. by rewrite <- !app_assoc. }
  assert (H2 : new_effects s1 s2
               = [ELock; EStoreInShutdown true] ++ es2 ++ [EUnlock] ++ runtime_shutdowns s1).
  { apply new_effects_eq. subst s2. simpl. by rewrite <- !app_assoc. }
  assert (H12 : new_effects s s2 = new_effects s s1 ++ new_effects s1 s2).
  { rewrite H1, H2. apply new_effects_eq. subst s2 s1. simpl. by rewrite <- !app_assoc. }
  assert (C1 : shutdowns_of a (new_effects s s1) = 1%nat).
  { rewrite H1, !shutdowns_of_app, (shutdowns_of_log_tty a es1 Hes1), Hrs.
    rewrite bool_decide_eq_true_2 by (by left). done. }
  assert (C2 : shutdowns_of a (new_effects s1 s2) = 1%nat).
  { rewrite H2, !shutdowns_of_app, (shutdowns_of_log_tty a es2 Hes2), Hrs.
    rewrite bool_decide_eq_true_2 by (by left). done. }
  exists s1, s2. repeat split; try done.
  - rewrite H2. apply list_elem_of_further, list_elem_of_here.
  - rewrite H12, shutdowns_of_app, C1, C2. done.
Qed.

Lemma shutdown_twice_aliased_witness :
  ∃ s1 s2,
    shutdown flags_single (Some main_thread) vm_single = Ret tt s1
    ∧ shutdown flags_single (Some main_thread) s1 = Ret tt s2
    ∧ shutdowns_of 3%positive (new_effects vm_single s2) = 2%nat.
Proof.
  destruct (shutdown_twice_aliased flags_single main_thread vm_single 3%positive)
    as (s1 & s2 & Hrun1 & _ & Hrun2 & _ & _ & _ & _ & Htwice); try reflexivity.
  exists s1, s2. split; [exact Hrun1|]. split; [exact Hrun2|]. exact Htwice.
Defined.

(** ** What each entry point leaves alone *)

Lemma dll_loads_app (es1 es2 : list Effect) :
  dll_loads (es1 ++ es2) = (dll_loads es1 + dll_loads es2)%nat.
Proof. unfold dll_loads. by rewrite List.filter_app, length_app. Qed.

(** A state that differs from [s] by added effects, none of them a load,
    has the runtimes and the library of [s]. *)
Lemma append_effects_fixed (es : list Effect) (s : VM) :
  dll_loads es = 0%nat ->
  stable s (append_effects es s).
Proof.
  intros Hes. repeat split; try done.
  simpl. rewrite dll_loads_app, Hes. lia.
Qed.

Lemma runtimes_fixed_refl (s : VM) : runtimes_fixed s s.
Proof. by repeat split. Qed.

Lemma library_fixed_refl (s : VM) : library_fixed s s.
Proof. by repeat split. Qed.

Lemma runtimes_fixed_trans (s1 s2 s3 : VM) :
  runtimes_fixed s1 s2 -> runtimes_fixed s2 s3 -> runtimes_fixed s1 s3.
Proof.
  intros (Hc1 & Hj1 & Hr1) (Hc2 & Hj2 & Hr2).
  repeat split; [congruence|congruence|]. intros p z Hp. by apply Hr2, Hr1.
Qed.

Lemma library_fixed_trans (s1 s2 s3 : VM) :
  library_fixed s1 s2 -> library_fixed s2 s3 -> library_fixed s1 s3.
Proof. intros (? & ? & ?) (? & ? & ?). repeat split; congruence. Qed.

Lemma stable_refl (s : VM) : stable s s.
Proof. split; [apply runtimes_fixed_refl|apply library_fixed_refl]. Qed.

Lemma stable_trans (s1 s2 s3 : VM) : stable s1 s2 -> stable s2 s3 -> stable s1 s3.
Proof.
  intros [? ?] [? ?]. split; [by eapply runtimes_fixed_trans|by eapply library_fixed_trans].
Qed.

Lemma log_tty_no_load (es : list Effect) :
  Forall (fun e => is_logv e || is_tty e = true) es -> dll_loads es = 0%nat.
Proof.
  induction 1 as [|e es He _ IH]; [done|].
  unfold dll_loads in *. simpl. by destruct e.
Qed.

Lemma event_fixed (flags : Flags) (current : option Thread) (level : Z)
    (msg : string) (s : VM) :
  stable s (final_state (event flags current level msg s)).
Proof.
  destruct (event_final flags current level msg s) as (es & Hfin & Hes).
  rewrite Hfin. by apply append_effects_fixed, log_tty_no_load.
Qed.

Ltac solve_fixed :=
  unfold stable; repeat split; simpl; try done;
  rewrite ?dll_loads_app; unfold dll_loads; simpl; lia.

Lemma metadata_do_fixed (f : positive) (s : VM) :
  stable s (final_state (metadata_do f s)).
Proof.
  unfold metadata_do, handles_metadata_do, bind, read, deref_runtime, deref_handles,
    emit, update, ret.
  repeat case_match; simplify_eq/=; solve_fixed.
Qed.

Lemma do_unloading_fixed (b : bool) (s : VM) :
  stable s (final_state (do_unloading b s)).
Proof.
  unfold do_unloading, handles_do_unloading, bind, read, deref_runtime, deref_handles,
    emit, update, ret.
  repeat case_match; simplify_eq/=; solve_fixed.
Qed.

Lemma role_of_insert_state (s : VM) (a : addr) (c c' : JVMCICompileState) (p : ptr) (z : Z) :
  heap s !! a = Some (OJVMCICompileState c) ->
  role_of s p = Some z ->
  role_of (set_heap (<[a := OJVMCICompileState c']> (heap s)) s) p = Some z.
Proof.
  unfold role_of. destruct p as [b|]; [|done]. simpl. intros Ha Hb.
  destruct (decide (a = b)) as [->|Hne].
  - by rewrite Ha in Hb.
  - by rewrite lookup_insert_ne.
Qed.

Lemma compilation_tick_fixed (thread : Thread) (s : VM) :
  stable s (final_state (compilation_tick thread s)).
Proof.
  unfold compilation_tick, inc_compilation_ticks, bind, read, deref_task, deref_state,
    update, ret.
  repeat case_match; simplify_eq/=; try solve_fixed.
  repeat split; try done. intros p z Hp. by eapply role_of_insert_state.
Qed.

Lemma can_initialize_JVMCI_fixed (os : Platform) (loader : ptr) (modules : bool) (s : VM) :
  stable s (final_state (can_initialize_JVMCI os loader modules s)).
Proof.
  unfold can_initialize_JVMCI, assert, bind, abort, ret.
  repeat case_match; simplify_eq/=; apply stable_refl.
Qed.

Lemma initialize_compiler_fixed (flags : Flags) (s : VM) :
  stable s (final_state (initialize_compiler flags s)).
Proof.
  unfold initialize_compiler, JVMCIRuntime_call_getCompiler, compiler_runtime,
    bind, read, emit, update, abort, ret.
  repeat case_match; simplify_eq/=; solve_fixed.
Qed.

Lemma JVMCIRuntime_shutdown_final (p : ptr) (s : VM) :
  ∃ es, final_state (JVMCIRuntime_shutdown p s) = append_effects es s
        ∧ dll_loads es = 0%nat
        ∧ ∀ u s', JVMCIRuntime_shutdown p s = Ret u s' -> s' = append_effects es s.
Proof.
  unfold JVMCIRuntime_shutdown.
  destruct p as [a|]; [destruct (heap s !! a) as [[]|]|]; simpl;
    try (exists []; rewrite append_effects_nil; by repeat split).
  eexists [_]. split; [reflexivity|]. split; [done|]. by intros u s' [= <-].
Qed.

Lemma shutdown_fixed (flags : Flags) (current : option Thread) (s : VM) :
  stable s (final_state (shutdown flags current s)).
Proof.
  unfold shutdown. unfold bind at 1. unfold MutexLocker_lock.
  destruct current as [t|]; cbv beta; [|apply stable_refl].
  destruct (JVMCI_lock_owner s); cbv beta; [apply stable_refl|].
  unfold bind at 1, update at 1. unfold bind at 1, emit at 1, update at 1.
  unfold bind at 1, JVMCI_event_1.
  match goal with |- context [event1 flags (Some t) ?m ?s2] =>
    pose proof (event_fixed flags (Some t) 1 m s2) as Hev;
    assert (H02 : stable s s2) by solve_fixed;
    change (event1 flags (Some t) m s2) with (event flags (Some t) 1 m s2);
    destruct (event flags (Some t) 1 m s2) as [u s3|e s3]; simpl in Hev;
    pose proof (stable_trans _ _ _ H02 Hev) as H03; clear H02 Hev
  end; [|exact H03].
  unfold bind at 1, MutexLocker_unlock.
  set (s4 := add_effect EUnlock (set_lock_owner None s3)).
  assert (H04 : stable s s4) by (eapply stable_trans; [exact H03|solve_fixed]).
  clearbody s4. clear H03.
  unfold compiler_runtime. unfold bind, read, ret. cbv beta iota.
  match goal with |- context [bool_decide ?P] => destruct (bool_decide P) end.
  - destruct (JVMCIRuntime_shutdown_final (_java_runtime s4) s4) as (e1 & Hf1 & He1 & Hret1).
    destruct (JVMCIRuntime_shutdown (_java_runtime s4) s4) as [u1 s5|x s5] eqn:H5; simpl in Hf1.
    + subst s5. simpl.
      destruct (is_null (_compiler_runtime s4)); simpl.
      * eapply stable_trans; [exact H04|]. by apply append_effects_fixed.
      * destruct (JVMCIRuntime_shutdown_final (_compiler_runtime s4) (append_effects e1 s4))
          as (e2 & -> & He2 & _).
        rewrite append_effects_app.
        eapply stable_trans; [exact H04|]. apply append_effects_fixed.
        rewrite dll_loads_app; lia.
    + subst s5. eapply stable_trans; [exact H04|]. by apply append_effects_fixed.
  - destruct (is_null (_compiler_runtime s4)); simpl; [done|].
    destruct (JVMCIRuntime_shutdown_final (_compiler_runtime s4) s4) as (e2 & -> & He2 & _).
    eapply stable_trans; [exact H04|]. by apply append_effects_fixed.
Qed.

Lemma initialize_globals_library_fixed (flags : Flags) (os : Platform) (s : VM) :
  library_fixed s (final_state (initialize_globals flags os s)).
Proof.
  rewrite initialize_globals_unfold.
  destruct (initialize_event_logs_spec flags os s) as (s1 & Hrun1 & _ & Hs1 & _).
  rewrite (bind_ret_l _ _ _ _ _ Hrun1).
  assert (H1 : library_fixed s s1) by (rewrite Hs1; by repeat split).
  eapply library_fixed_trans; [exact H1|].
  unfold initialize_runtimes, new_JVMCIRuntime, new, bind, update, read.
  destruct (UseJVMCINativeLibrary flags); by repeat split.
Qed.

(** ** The shared library *)

(** The fast path of [get_shared_library]. *)
Lemma get_shared_library_fast (flags : Flags) (os : Platform) (current : option Thread)
    (load : bool) (s : VM) :
  _shared_library_handle s ≠ NULL ∨ load = false ->
  get_shared_library flags os current load s
  = Ret (_shared_library_handle s, _shared_library_path s) s.
Proof.
  intros H. unfold get_shared_library, bind, read.
  destruct (_shared_library_handle s) as [h|] eqn:Hh; simpl; [done|].
  destruct H as [H| ->]; done.
Qed.

(** The loading path, up to the three ways it can end: no path, a failed
    load, or a handle to publish. *)
Lemma get_shared_library_slow (flags : Flags) (os : Platform) (current : option Thread)
    (s : VM) :
  _shared_library_handle s = NULL ->
  get_shared_library flags os current true s
  = if lock_assert_ok os current s then
      match located flags os with
      | None =>
          Stop (Fatal match JVMCILibPath flags with
                      | Some lib_path =>
                          "Unable to create path to JVMCI shared library based on value of JVMCILibPath ("
                          +:+ lib_path +:+ ")"
                      | None => "Unable to create path to JVMCI shared library"
                      end) s
      | Some p =>
          match (dll_load os p).1 with
          | None =>
              Stop (Fatal ("Unable to load JVMCI shared library from " +:+ p
                           +:+ ": " +:+ (dll_load os p).2))
                   (add_effect (EDllLoad p) s)
          | Some h =>
              match event1 flags current ("loaded JVMCI shared library from " +:+ p)
                      (set_shared_library_path (Some p)
                         (set_shared_library_handle (Some h)
                            (add_effect (EDllLoad p) s))) with
              | Ret _ s' => Ret (_shared_library_handle s', _shared_library_path s') s'
              | Stop e s' => Stop e s'
              end
          end
      end
    else Stop (AssertFailed "must be") s.
Proof.
  intros Hnull. unfold get_shared_library, lock_assert_ok, located, library_dir.
  unfold bind at 1. unfold read at 1. rewrite Hnull. simpl.
  unfold bind at 1. unfold read at 1.
  unfold bind at 1. unfold assert.
  destruct (ASSERT os); simpl.
  - destruct (bool_decide _); simpl; [|done].
    unfold bind at 1. unfold read at 1. rewrite Hnull. simpl.
    destruct (JVMCILibPath flags) as [lp|];
      match goal with |- context [dll_locate_lib os ?d ?n] =>
        destruct (dll_locate_lib os d n) as [p|] end;
      unfold bind, fatal, abort, emit, update, ret, read, JVMCI_event_1; simpl; try done;
      destruct (dll_load os p) as [[h|] e]; simpl; try done.
  - unfold bind at 1. unfold read at 1. rewrite Hnull. simpl.
    destruct (JVMCILibPath flags) as [lp|];
      match goal with |- context [dll_locate_lib os ?d ?n] =>
        destruct (dll_locate_lib os d n) as [p|] end;
      unfold bind, fatal, abort, emit, update, ret, read, JVMCI_event_1; simpl; try done;
      destruct (dll_load os p) as [[h|] e]; simpl; try done.
Qed.

Lemma string_app_cons (c : Ascii.ascii) (s1 s2 : string) :
  String c s1 +:+ s2 = String c (s1 +:+ s2).
Proof. reflexivity. Qed.

Lemma string_app_assoc (s1 s2 s3 : string) : (s1 +:+ s2) +:+ s3 = s1 +:+ s2 +:+ s3.
Proof.
  induction s1 as [|c s1 IH]; [done|].
  by rewrite !string_app_cons, IH.
Qed.

Lemma string_app_nil_r (s : string) : s +:+ "" = s.
Proof.
  induction s as [|c s IH]; [done|].
  by rewrite string_app_cons, IH.
Qed.

Lemma chars_app (s1 s2 : string) : chars (s1 +:+ s2) = chars s1 ++ chars s2.
Proof.
  induction s1 as [|c s1 IH]; [done|].
  rewrite string_app_cons. simpl. by rewrite IH.
Qed.

Lemma includes_chars (msg part : string) (c : Ascii.ascii) :
  includes msg part -> c ∈ chars part -> c ∈ chars msg.
Proof.
  intros (pre & post & ->) Hc. rewrite !chars_app, !elem_of_app. tauto.
Qed.

Lemma includes_middle (pre part post : string) : includes (pre +:+ part +:+ post) part.
Proof. by exists pre, post. Qed.

Lemma includes_end (pre part : string) : includes (pre +:+ part) part.
Proof. exists pre, ""%string. by rewrite string_app_nil_r. Qed.

Lemma get_shared_library_counterexample :
  ¬ fatal_names_path_and_error flags_single os_no_path (Some main_thread) vm_initial_locked.
Proof.
  intros H.
  destruct (H "Unable to create path to JVMCI shared library"%string vm_initial_locked eq_refl)
    as [Hpath _].
  (* the character '/' (code 47) occurs in the directory, not in the message *)
  apply (includes_chars _ _ (Ascii.ascii_of_nat 47)) in Hpath.
  - vm_compute in Hpath. repeat (apply elem_of_cons in Hpath as [Hpath|Hpath]; [done|]).
    by apply elem_of_nil in Hpath.
  - vm_compute. apply list_elem_of_here.
Qed.

(** C8, as amended.  In the loading path of [get_shared_library] an
    unresolvable library path and a failed load are fatal: the call does
    not return, no handle is published and the load is not tried again.
    For a failed load the message includes the attempted path and the
    loader's error text.  For an unresolvable path no load is attempted
    and the message includes [JVMCILibPath] when that flag is set; when it
    is not set the message is a fixed text. *)
Theorem load_failure_is_fatal (flags : Flags) (os : Platform) (current : option Thread)
    (s : VM) :
  _shared_library_handle s = NULL ->
  lock_assert_ok os current s = true ->
  (located flags os = None ->
   ∃ msg,
     get_shared_library flags os current true s = Stop (Fatal msg) s
     ∧ match JVMCILibPath flags with
       | Some lib_path => includes msg lib_path
       | None => msg = "Unable to create path to JVMCI shared library"%string
       end)
  ∧ (∀ p, located flags os = Some p -> (dll_load os p).1 = NULL ->
     ∃ msg,
       get_shared_library flags os current true s
       = Stop (Fatal msg) (add_effect (EDllLoad p) s)
       ∧ includes msg p
       ∧ includes msg (dll_load os p).2
       ∧ _shared_library_handle (add_effect (EDllLoad p) s) = NULL
       ∧ dll_loads (new_effects s (add_effect (EDllLoad p) s)) = 1%nat).
Proof.
  intros Hnull Hlock. split.
  - intros Hloc. rewrite (get_shared_library_slow _ _ _ _ Hnull), Hlock, Hloc.
    eexists. split; [reflexivity|].
    destruct (JVMCILibPath flags) as [lp|]; [|done]. apply includes_middle.
  - intros p Hloc Hload. rewrite (get_shared_library_slow _ _ _ _ Hnull), Hlock, Hloc, Hload.
    eexists. split; [reflexivity|]. split; [apply includes_middle|].
    split; [|split; [exact Hnull|]].
    + rewrite <- (string_app_assoc _ ": "), <- string_app_assoc. apply includes_end.
    + unfold add_effect. by rewrite new_effects_append.
Qed.

Lemma load_failure_is_fatal_witness :
  (∃ msg, get_shared_library flags_dual os_no_path (Some main_thread) true vm_dual_locked
          = Stop (Fatal msg) vm_dual_locked
          ∧ includes msg "/graal")
  ∧ (∃ msg, get_shared_library flags_single os_no_load (Some main_thread) true
              vm_initial_locked
            = Stop (Fatal msg)
                (add_effect (EDllLoad "/opt/jdk/lib/libjvmcicompiler.so") vm_initial_locked)
            ∧ includes msg "/opt/jdk/lib/libjvmcicompiler.so"
            ∧ includes msg "wrong ELF class").
Proof.
  split.
  - destruct (load_failure_is_fatal flags_dual os_no_path (Some main_thread) vm_dual_locked
                eq_refl eq_refl) as [Hpath _].
    destruct (Hpath eq_refl) as (msg & Hrun & Hinc). by exists msg.
  - destruct (load_failure_is_fatal flags_single os_no_load (Some main_thread)
                vm_initial_locked eq_refl eq_refl) as [_ Hload].
    destruct (Hload "/opt/jdk/lib/libjvmcicompiler.so"%string eq_refl eq_refl)
      as (msg & Hrun & Hp & He & _).
    by exists msg.
Defined.

Lemma get_shared_library_effect (flags : Flags) (os : Platform) (current : option Thread)
    (load : bool) (s : VM) :
  runtimes_fixed s (final_state (get_shared_library flags os current load s))
  ∧ loads_at_most_once s (get_shared_library flags os current load s).
Proof.
  destruct (_shared_library_handle s) as [h|] eqn:Hh.
  { rewrite get_shared_library_fast by (left; congruence).
    split; [apply runtimes_fixed_refl|left; apply library_fixed_refl]. }
  destruct load.
  2:{ rewrite get_shared_library_fast by (by right).
      split; [apply runtimes_fixed_refl|left; apply library_fixed_refl]. }
  rewrite (get_shared_library_slow _ _ _ _ Hh).
  destruct (lock_assert_ok os current s);
    [|split; [apply runtimes_fixed_refl|left; apply library_fixed_refl]].
  destruct (located flags os) as [p|];
    [|split; [apply runtimes_fixed_refl|left; apply library_fixed_refl]].
  destruct (dll_load os p).1 as [h|].
  - match goal with |- context [event1 flags current ?m ?s1] =>
      pose proof (event_fixed flags current 1 m s1) as [Hr Hl];
      change (event1 flags current m s1) with (event flags current 1 m s1);
      destruct (event flags current 1 m s1) as [u s2|e s2]; simpl in Hr, Hl
    end.
    all: split; [eapply runtimes_fixed_trans; [|exact Hr]; by repeat split|].
    all: right; destruct Hl as (Hlh & _ & Hld); simpl; rewrite Hld, Hlh; simpl.
    all: split; [done|]; split; [rewrite dll_loads_app; unfold dll_loads; simpl; lia|].
    all: by right.
  - split; [by repeat split|]. right. simpl.
    split; [done|]. split; [rewrite dll_loads_app; unfold dll_loads; simpl; lia|by left].
Qed.

Lemma ignore_final {A} (m : M A) (s : VM) :
  final_state (ignore m s) = final_state (m s) ∧ returns (ignore m s) = returns (m s).
Proof. unfold ignore, bind, ret. by destruct (m s). Qed.

Lemma loads_at_most_once_ignore {A} (m : M A) (s : VM) :
  loads_at_most_once s (m s) -> loads_at_most_once s (ignore m s).
Proof.
  unfold loads_at_most_once. destruct (ignore_final m s) as [-> ->]. done.
Qed.

(** What one call, of any entry point, by any thread, can change. *)
Lemma run_call_effect (flags : Flags) (os : Platform) (c : option Thread * Call) (s : VM) :
  (is_initialize_globals c.2 = false ->
   runtimes_fixed s (final_state (run_call flags os c s)))
  ∧ loads_at_most_once s (run_call flags os c s).
Proof.
  destruct c as [current [loader modules| | |load|thread|f|b| | | |level msg]];
    unfold run_call; simpl.
  - destruct (can_initialize_JVMCI_fixed os loader modules s) as [Hr Hl].
    split; [intros _; by rewrite (proj1 (ignore_final _ _))|].
    apply loads_at_most_once_ignore. by left.
  - destruct (initialize_compiler_fixed flags s). split; [done|by left].
  - split; [done|]. left. apply initialize_globals_library_fixed.
  - destruct (get_shared_library_effect flags os current load s) as [Hr Hl].
    split; [intros _; by rewrite (proj1 (ignore_final _ _))|].
    by apply loads_at_most_once_ignore.
  - destruct (compilation_tick_fixed thread s) as [Hr Hl].
    split; [intros _; by rewrite (proj1 (ignore_final _ _))|].
    apply loads_at_most_once_ignore. by left.
  - destruct (metadata_do_fixed f s). split; [done|by left].
  - destruct (do_unloading_fixed b s). split; [done|by left].
  - split; [intros _; apply runtimes_fixed_refl|left; apply library_fixed_refl].
  - destruct (shutdown_fixed flags current s). split; [done|by left].
  - split; [intros _; apply runtimes_fixed_refl|left; apply library_fixed_refl].
  - destruct (event_fixed flags current level msg s). split; [done|by left].
Qed.

Lemma run_calls_cons (flags : Flags) (os : Platform) (c : option Thread * Call)
    (cs : list (option Thread * Call)) (s : VM) :
  run_calls flags os (c :: cs) s
  = match run_call flags os c s with
    | Ret _ s1 => run_calls flags os cs s1
    | Stop e s1 => Stop e s1
    end.
Proof. reflexivity. Qed.

(** No sequence of calls without [initialize_globals] changes the runtime
    fields or the role of a runtime. *)
Lemma run_calls_runtimes_fixed (flags : Flags) (os : Platform)
    (cs : list (option Thread * Call)) :
  Forall (fun c => is_initialize_globals c.2 = false) cs ->
  ∀ s, runtimes_fixed s (final_state (run_calls flags os cs s)).
Proof.
  induction 1 as [|c cs Hc _ IH]; intros s; [apply runtimes_fixed_refl|].
  rewrite run_calls_cons.
  pose proof (proj1 (run_call_effect flags os c s) Hc) as Hr.
  destruct (run_call flags os c s) as [u s1|e s1]; simpl in Hr; [|exact Hr].
  eapply runtimes_fixed_trans; [exact Hr|apply IH].
Qed.

(** Once a handle is published, no sequence of calls changes it, its path
    or the number of loads. *)
Lemma run_calls_library_fixed (flags : Flags) (os : Platform)
    (cs : list (option Thread * Call)) :
  ∀ s, _shared_library_handle s ≠ NULL ->
       library_fixed s (final_state (run_calls flags os cs s)).
Proof.
  induction cs as [|c cs IH]; intros s Hs; [apply library_fixed_refl|].
  rewrite run_calls_cons.
  pose proof (proj2 (run_call_effect flags os c s)) as [Hl|[Hnull _]]; [|done].
  destruct (run_call flags os c s) as [u s1|e s1]; simpl in Hl; [|exact Hl].
  eapply library_fixed_trans; [exact Hl|]. apply IH.
  destruct Hl as [-> _]. exact Hs.
Qed.

(** No sequence of calls asks the loader more than once. *)
Lemma run_calls_loads (flags : Flags) (os : Platform) (cs : list (option Thread * Call)) :
  ∀ s, (dll_loads (effects (final_state (run_calls flags os cs s)))
        <= dll_loads (effects s) + 1)%nat.
Proof.
  induction cs as [|c cs IH]; intros s; [simpl; lia|].
  rewrite run_calls_cons.
  pose proof (proj2 (run_call_effect flags os c s)) as Hl.
  destruct (run_call flags os c s) as [u s1|e s1]; simpl in Hl.
  - destruct Hl as [(_ & _ & Hd)|(_ & Hd & [Hret|Hpub])]; simpl in *.
    + specialize (IH s1). lia.
    + done.
    + destruct (run_calls_library_fixed flags os cs s1 Hpub) as (_ & _ & Hd'). lia.
  - destruct Hl as [(_ & _ & Hd)|(_ & Hd & _)]; simpl in *; lia.
Qed.

Lemma get_shared_library_returns_published (flags : Flags) (os : Platform)
    (current : option Thread) (load : bool) (s s' : VM) (h : ptr) (p : option string) :
  get_shared_library flags os current load s = Ret (h, p) s' ->
  _shared_library_handle s' = h ∧ _shared_library_path s' = p.
Proof.
  destruct (_shared_library_handle s) as [h0|] eqn:Hh.
  { rewrite get_shared_library_fast by (left; congruence). rewrite Hh. by intros [= <- <- <-]. }
  destruct load.
  2:{ rewrite get_shared_library_fast by (by right). rewrite Hh. by intros [= <- <- <-]. }
  rewrite (get_shared_library_slow _ _ _ _ Hh).
  destruct (lock_assert_ok os current s); [|done].
  destruct (located flags os) as [path|]; [|done].
  destruct (dll_load os path).1 as [h1|]; [|done].
  destruct (event1 _ _ _ _) as [u s2|e s2]; [|done].
  by intros [= <- <- <-].
Qed.

(** C2. [get_shared_library] loads the library at most once per process.
    With a handle already published, or with [load] false, a call returns
    the current handle (possibly NULL) and path and changes nothing.  What
    a call returns is what is published.  Once a handle is published,
    every later call, whatever calls are made in between and by whichever
    thread, returns that handle and that path, and the loader is not
    asked again; over any sequence of calls the loader is asked at most
    once. *)
Theorem shared_library_loaded_once (flags : Flags) (os : Platform) :
  (∀ current load s,
     _shared_library_handle s ≠ NULL ∨ load = false ->
     get_shared_library flags os current load s
     = Ret (_shared_library_handle s, _shared_library_path s) s)
  ∧ (∀ current load s h p s',
       get_shared_library flags os current load s = Ret (h, p) s' ->
       _shared_library_handle s' = h ∧ _shared_library_path s' = p)
  ∧ (∀ s h, _shared_library_handle s = Some h ->
       ∀ cs current load,
         get_shared_library flags os current load (final_state (run_calls flags os cs s))
         = Ret (Some h, _shared_library_path s) (final_state (run_calls flags os cs s))
         ∧ dll_loads (effects (final_state (run_calls flags os cs s)))
           = dll_loads (effects s))
  ∧ (∀ cs s,
       (dll_loads (effects (final_state (run_calls flags os cs s)))
        <= dll_loads (effects s) + 1)%nat).
Proof.
  split; [intros; by apply get_shared_library_fast|].
  split; [intros; by eapply get_shared_library_returns_published|].
  split; [|intros; apply run_calls_loads].
  intros s h Hh cs current load.
  destruct (run_calls_library_fixed flags os cs s) as (Hh' & Hp' & Hd'); [congruence|].
  split; [|exact Hd'].
  rewrite get_shared_library_fast by (left; congruence).
  by rewrite Hh', Hp', Hh.
Qed.

Lemma shared_library_loaded_once_witness :
  get_shared_library flags_dual os_good (Some compiler_thread) true
    (final_state (run_calls flags_dual os_good
                    [(Some main_thread, CallShutdown);
                     (Some compiler_thread, CallGetSharedLibrary true)] vm_loaded))
  = Ret (Some 77%positive, Some "/graal/libjvmcicompiler.so"%string)
        (final_state (run_calls flags_dual os_good
                        [(Some main_thread, CallShutdown);
                         (Some compiler_thread, CallGetSharedLibrary true)] vm_loaded))
  ∧ dll_loads (effects (final_state (run_calls flags_dual os_good
                    [(Some main_thread, CallShutdown);
                     (Some compiler_thread, CallGetSharedLibrary true)] vm_loaded)))
    = 1%nat.
Proof.
  destruct (shared_library_loaded_once flags_dual os_good) as (_ & _ & Hlater & _).
  apply (Hlater vm_loaded 77%positive eq_refl).
Defined.

(** ** The runtime registry *)

(** C1. [initialize_globals] always returns, and sets up the runtimes by
    the flag [UseJVMCINativeLibrary].  Flag off: [_compiler_runtime] and
    [_java_runtime] hold the same pointer, to one new runtime constructed
    with role 0.  Flag on: they hold different pointers, to two new
    runtimes, the compiler runtime with role 0 and the java runtime with
    role -1.  No later sequence of calls of the other entry points changes
    either field or the role of a runtime. *)
Theorem initialize_globals_runtimes (flags : Flags) (os : Platform) (s : VM) :
  ∃ s',
    initialize_globals flags os s = Ret tt s'
    ∧ (if UseJVMCINativeLibrary flags
       then ∃ c j,
              _compiler_runtime s' = Some c ∧ _java_runtime s' = Some j ∧ c ≠ j
              ∧ role_of s' (Some c) = Some 0 ∧ role_of s' (Some j) = Some (-1)
              ∧ (c ∉ dom (heap s)) ∧ (j ∉ dom (heap s))
       else ∃ c,
              _compiler_runtime s' = Some c ∧ _java_runtime s' = Some c
              ∧ role_of s' (Some c) = Some 0
              ∧ (c ∉ dom (heap s)))
    ∧ ∀ cs, Forall (fun c => is_initialize_globals c.2 = false) cs ->
            runtimes_fixed s' (final_state (run_calls flags os cs s')).
Proof.
  destruct (initialize_event_logs_spec flags os s) as (s1 & Hrun1 & Hsub & _).
  rewrite initialize_globals_unfold, (bind_ret_l _ _ _ _ _ Hrun1).
  assert (Hdom : dom (heap s) ⊆ dom (heap s1)) by by apply subseteq_dom.
  destruct (UseJVMCINativeLibrary flags) eqn:Hmode.
  - destruct (initialize_runtimes_dual flags s1 Hmode)
      as (s' & c & j & -> & Hc & Hj & Hne & Hrc & Hrj & Hcn & Hjn & _).
    exists s'. split; [done|]. split.
    + exists c, j. repeat split; try done; set_solver.
    + intros cs Hcs. by apply run_calls_runtimes_fixed.
  - destruct (initialize_runtimes_single flags s1 Hmode)
      as (s' & c & -> & Hc & Hj & Hrc & Hcn & _).
    exists s'. split; [done|]. split.
    + exists c. repeat split; try done; set_solver.
    + intros cs Hcs. by apply run_calls_runtimes_fixed.
Qed.

Lemma initialize_globals_runtimes_witness :
  ∃ s',
    initialize_globals flags_dual os_good initial_VM = Ret tt s'
    ∧ runtimes_fixed s'
        (final_state (run_calls flags_dual os_good
                        [(Some main_thread, CallMetadataDo 5);
                         (Some main_thread, CallShutdown)] s')).
Proof.
  destruct (initialize_globals_runtimes flags_dual os_good initial_VM)
    as (s' & Hrun & _ & Hfixed).
  exists s'. split; [exact Hrun|].
  apply Hfixed. repeat constructor.
Defined.

(** ** The states [initialize_globals] leaves *)

Lemma is_log_weaken (s s' : VM) (p : ptr) :
  heap s ⊆ heap s' -> is_log s p = true -> is_log s' p = true.
Proof.
  intros Hsub (a & l & -> & Ha)%is_log_Some.
  unfold is_log. by rewrite (lookup_weaken _ _ _ _ Ha Hsub).
Qed.

Lemma initialize_runtimes_wf (flags : Flags) (s1 : VM) :
  ∃ s',
    initialize_runtimes flags s1 = Ret tt s'
    ∧ is_runtime s' (_compiler_runtime s') = true
    ∧ is_runtime s' (_java_runtime s') = true
    ∧ (_compiler_runtime s' = _java_runtime s'
       ∨ table_of s' (_compiler_runtime s') ≠ table_of s' (_java_runtime s'))
    ∧ heap s1 ⊆ heap s'
    ∧ _events s' = _events s1 ∧ _verbose_events s' = _verbose_events s1
    ∧ JVMCI_lock_owner s' = JVMCI_lock_owner s1.
Proof.
  unfold initialize_runtimes.
  destruct (new_JVMCIRuntime_spec 0 s1) as (tc & c & Hc & Htc & Hcn & Hctc).
  destruct (UseJVMCINativeLibrary flags).
  - unfold bind at 1. rewrite Hc. unfold bind at 1. unfold update at 1.
    match goal with |- context [bind _ _ ?s] => set (s2 := s) end.
    destruct (new_JVMCIRuntime_spec (-1) s2) as (tj & j & Hj & Htj & Hjn & Hjtj).
    unfold bind. rewrite Hj. unfold update.
    subst s2. simpl in *. rewrite !dom_insert_L in *.
    apply not_elem_of_union in Htj as [Htj1 Htj2].
    apply not_elem_of_union in Htj2 as [Htj2 Htj3].
    apply not_elem_of_union in Hjn as [Hjn1 Hjn2].
    apply not_elem_of_union in Hjn2 as [Hjn2 Hjn3].
    rewrite not_elem_of_singleton in Htj1, Htj2, Hjn1, Hjn2.
    eexists. split; [reflexivity|]. simpl.
    assert (Hc' : table_of
              (set_java_runtime (Some j)
                 (set_heap
                    (<[j:=OJVMCIRuntime {| _id := -1; _metadata_handles := Some tj |}]>
                       (<[tj:=OMetadataHandles]>
                          (<[c:=OJVMCIRuntime {| _id := 0; _metadata_handles := Some tc |}]>
                             (<[tc:=OMetadataHandles]> (heap s1)))))
                    (set_compiler_runtime (Some c)
                       (set_heap
                          (<[c:=OJVMCIRuntime {| _id := 0; _metadata_handles := Some tc |}]>
                             (<[tc:=OMetadataHandles]> (heap s1))) s1)))) (Some c)
            = Some tc).
    { unfold table_of. simpl.
      rewrite (lookup_insert_ne _ j c), (lookup_insert_ne _ tj c), lookup_insert_eq by done.
      simpl.
      rewrite (lookup_insert_ne _ j tc), (lookup_insert_ne _ tj tc),
        (lookup_insert_ne _ c tc), lookup_insert_eq by done.
      done. }
    assert (Hj' : table_of
              (set_java_runtime (Some j)
                 (set_heap
                    (<[j:=OJVMCIRuntime {| _id := -1; _metadata_handles := Some tj |}]>
                       (<[tj:=OMetadataHandles]>
                          (<[c:=OJVMCIRuntime {| _id := 0; _metadata_handles := Some tc |}]>
                             (<[tc:=OMetadataHandles]> (heap s1)))))
                    (set_compiler_runtime (Some c)
                       (set_heap
                          (<[c:=OJVMCIRuntime {| _id := 0; _metadata_handles := Some tc |}]>
                             (<[tc:=OMetadataHandles]> (heap s1))) s1)))) (Some j)
            = Some tj).
    { unfold table_of. simpl. rewrite lookup_insert_eq. simpl.
      rewrite (lookup_insert_ne _ j tj), lookup_insert_eq by done. done. }
    unfold is_runtime. rewrite Hc', Hj'.
    repeat split; try done.
    + right. congruence.
    + repeat (apply insert_fresh_subseteq;
        [|rewrite ?dom_insert_L, ?not_elem_of_union, ?not_elem_of_singleton; done]).
      done.
  - unfold bind at 1. rewrite Hc. unfold bind, update, read. simpl.
    eexists. split; [reflexivity|]. simpl.
    assert (Hc' : table_of
              (set_java_runtime (Some c)
                 (set_compiler_runtime (Some c)
                    (set_heap
                       (<[c:=OJVMCIRuntime {| _id := 0; _metadata_handles := Some tc |}]>
                          (<[tc:=OMetadataHandles]> (heap s1))) s1))) (Some c)
            = Some tc).
    { unfold table_of. simpl. rewrite lookup_insert_eq. simpl.
      rewrite (lookup_insert_ne _ c tc), lookup_insert_eq by done. done. }
    unfold is_runtime. rewrite Hc'.
    repeat split; try done.
    + by left.
    + repeat (apply insert_fresh_subseteq;
        [|rewrite ?dom_insert_L, ?not_elem_of_union, ?not_elem_of_singleton; done]).
      done.
Qed.

(** From a well-formed state, in particular from the static initialisers,
    [initialize_globals] leaves a well-formed state with both runtimes
    constructed in which every call of [event] at a level of 1 or more
    finds its channel. *)
Lemma initialize_globals_ready (flags : Flags) (os : Platform) (s : VM) :
  wf_vm s = true ->
  ∃ s',
    initialize_globals flags os s = Ret tt s'
    ∧ wf_vm s' = true
    ∧ _compiler_runtime s' ≠ NULL ∧ _java_runtime s' ≠ NULL
    ∧ JVMCI_lock_owner s' = JVMCI_lock_owner s
    ∧ ∀ level, 1 <= level -> channel_ready flags level s' = true.
Proof.
  intros (_ & _ & He & Hv & _)%wf_vm_inv.
  destruct (initialize_event_logs_spec flags os s) as (s1 & Hrun1 & Hsub1 & Hs1 & He1 & Hv1).
  rewrite initialize_globals_unfold, (bind_ret_l _ _ _ _ _ Hrun1).
  destruct (initialize_runtimes_wf flags s1)
    as (s' & -> & Hc & Hj & Hd & Hsub & Hes & Hvs & Hlock).
  exists s'. split; [done|].
  assert (He' : LogEvents flags && (0 <? JVMCIEventLogLevel flags) = true ->
                is_log s' (_events s') = true).
  { intros Hon. rewrite Hon in He1. rewrite Hes. by eapply is_log_weaken. }
  assert (Hv' : LogEvents flags && (1 <? JVMCIEventLogLevel flags) = true ->
                is_log s' (_verbose_events s') = true).
  { intros Hon. rewrite Hon in Hv1. destruct Hv1 as (v & Hv1 & Hobj).
    rewrite Hvs, Hv1. unfold is_log. by rewrite (lookup_weaken _ _ _ _ Hobj Hsub). }
  split; [|split; [|split; [|split]]].
  - unfold wf_vm. rewrite Hc, Hj, !orb_true_r. simpl.
    rewrite bool_decide_eq_true_2 by done. rewrite andb_true_r.
    apply andb_true_iff. split.
    + destruct (LogEvents flags && (0 <? JVMCIEventLogLevel flags)) eqn:Hon.
      * rewrite He' by done. apply orb_true_r.
      * rewrite Hes, He1. apply orb_true_iff in He as [He|He]; [by rewrite He|].
        apply orb_true_iff. right. eapply is_log_weaken; [|exact He]. by etrans.
    + destruct (LogEvents flags && (1 <? JVMCIEventLogLevel flags)) eqn:Hon.
      * rewrite Hv' by done. apply orb_true_r.
      * rewrite Hvs, Hv1. apply orb_true_iff in Hv as [Hv|Hv]; [by rewrite Hv|].
        apply orb_true_iff. right. eapply is_log_weaken; [|exact Hv]. by etrans.
  - unfold is_runtime in Hc. apply bool_decide_eq_true in Hc as [t Ht].
    intros Hn. by rewrite Hn in Ht.
  - unfold is_runtime in Hj. apply bool_decide_eq_true in Hj as [t Ht].
    intros Hn. by rewrite Hn in Ht.
  - rewrite Hlock, Hs1. done.
  - intros level Hlevel. unfold channel_ready, log_gate, selected_channel.
    destruct (LogEvents flags) eqn:Hlog; simpl; [|done].
    destruct (level <=? JVMCIEventLogLevel flags) eqn:Hgate; simpl; [|done].
    apply Z.leb_le in Hgate.
    destruct (level =? 1) eqn:H1.
    + apply He'. simpl. lia.
    + apply Hv'. simpl. lia.
Qed.

(** * Further properties *)

(** ** The shape of each entry point's state change *)

Lemma only_effects_refl (s : VM) : ∃ es, s = append_effects es s.
Proof. exists []. by rewrite append_effects_nil. Qed.

Lemma only_effects_add (e : Effect) (s s0 : VM) :
  (∃ es, s0 = append_effects es s) -> ∃ es, add_effect e s0 = append_effects es s.
Proof. intros (es & ->). exists (es ++ [e]). apply add_effect_append. Qed.

Ltac solve_only_effects :=
  repeat apply only_effects_add; apply only_effects_refl.

Lemma can_initialize_JVMCI_effects (os : Platform) (loader : ptr) (modules : bool) (s : VM) :
  ∃ es, final_state (can_initialize_JVMCI os loader modules s) = append_effects es s.
Proof.
  unfold can_initialize_JVMCI, assert, bind, abort, ret.
  repeat case_match; simplify_eq/=; solve_only_effects.
Qed.

Lemma initialize_compiler_effects (flags : Flags) (s : VM) :
  ∃ es, final_state (initialize_compiler flags s) = append_effects es s.
Proof.
  unfold initialize_compiler, JVMCIRuntime_call_getCompiler, compiler_runtime,
    bind, read, emit, update, abort, ret.
  repeat case_match; simplify_eq/=; solve_only_effects.
Qed.

Lemma metadata_do_effects (f : positive) (s : VM) :
  ∃ es, final_state (metadata_do f s) = append_effects es s.
Proof.
  unfold metadata_do, handles_metadata_do, bind, read, deref_runtime, deref_handles,
    emit, update, ret.
  repeat case_match; simplify_eq/=; solve_only_effects.
Qed.

Lemma do_unloading_effects (b : bool) (s : VM) :
  ∃ es, final_state (do_unloading b s) = append_effects es s.
Proof.
  unfold do_unloading, handles_do_unloading, bind, read, deref_runtime, deref_handles,
    emit, update, ret.
  repeat case_match; simplify_eq/=; solve_only_effects.
Qed.

Lemma event_effects (flags : Flags) (current : option Thread) (level : Z)
    (msg : string) (s : VM) :
  ∃ es, final_state (event flags current level msg s) = append_effects es s.
Proof. destruct (event_final flags current level msg s) as (es & H & _). eauto. Qed.

(** Phase 2 of [shutdown] only adds effects. *)
Lemma shutdown_phase2_effects (s4 : VM) :
  ∃ d,
    final_state
      ((java_runtime <- read _java_runtime ;;
        c <- compiler_runtime ;;
        (if bool_decide (java_runtime ≠ c) then JVMCIRuntime_shutdown java_runtime
         else ret tt) ;;;
        c <- compiler_runtime ;;
        if negb (is_null c) then JVMCIRuntime_shutdown c else ret tt) s4)
    = append_effects d s4.
Proof.
  unfold compiler_runtime. unfold bind, read, ret, JVMCIRuntime_shutdown. cbv beta iota.
  repeat case_match; simplify_eq/=; solve_only_effects.
Qed.

Lemma shutdown_shape (flags : Flags) (current : option Thread) (s : VM) :
  final_state (shutdown flags current s) = s
  ∨ ∃ es o, final_state (shutdown flags current s)
            = append_effects es (set_lock_owner o (set_in_shutdown true s)).
Proof.
  cut (∃ s', final_state (shutdown flags current s) = s'
             ∧ (s' = s ∨ ∃ es o, s' = append_effects es
                                       (set_lock_owner o (set_in_shutdown true s)))).
  { intros (s' & -> & H). exact H. }
  unfold shutdown. unfold bind at 1. unfold MutexLocker_lock.
  destruct current as [t|]; cbv beta; [|eexists; split; [reflexivity|by left]].
  destruct (JVMCI_lock_owner s); cbv beta; [eexists; split; [reflexivity|by left]|].
  unfold bind at 1, update at 1. unfold bind at 1, emit at 1, update at 1.
  unfold bind at 1, JVMCI_event_1.
  match goal with |- context [event1 flags (Some t) ?m ?s2] =>
    destruct (event_final flags (Some t) 1 m s2) as (ev & Hfin & Hev);
    change (event1 flags (Some t) m s2) with (event flags (Some t) 1 m s2);
    destruct (event flags (Some t) 1 m s2) as [u s3|e s3]; simpl in Hfin; subst s3
  end.
  2:{ eexists; split; [reflexivity|]. right.
      exists ([ELock; EStoreInShutdown true] ++ ev), (Some (thread_id t)).
      unfold append_effects, add_effect, set_lock_owner, set_in_shutdown. simpl.
      f_equal. by rewrite <- !app_assoc. }
  unfold bind at 1, MutexLocker_unlock.
  match goal with |- context [final_state (?m ?s4)] =>
    destruct (shutdown_phase2_effects s4) as (d & Hd) end.
  eexists; split; [exact Hd|]. right.
  exists ([ELock; EStoreInShutdown true] ++ ev ++ [EUnlock] ++ d), None.
  unfold append_effects, add_effect, set_lock_owner, set_in_shutdown. simpl.
  f_equal. by rewrite <- !app_assoc.
Qed.

Lemma get_shared_library_shape (flags : Flags) (os : Platform) (current : option Thread)
    (load : bool) (s : VM) :
  (∃ es, final_state (get_shared_library flags os current load s) = append_effects es s)
  ∨ (_shared_library_handle s = NULL
     ∧ ∃ es h p,
         final_state (get_shared_library flags os current load s)
         = append_effects es
             (set_shared_library_path (Some p) (set_shared_library_handle (Some h) s))).
Proof.
  destruct (_shared_library_handle s) as [h|] eqn:Hh.
  { left. rewrite get_shared_library_fast by (left; congruence). apply only_effects_refl. }
  destruct load.
  2:{ left. rewrite get_shared_library_fast by (by right). apply only_effects_refl. }
  rewrite (get_shared_library_slow _ _ _ _ Hh).
  destruct (lock_assert_ok os current s); [|left; apply only_effects_refl].
  destruct (located flags os) as [p|]; [|left; apply only_effects_refl].
  destruct (dll_load os p).1 as [h|]; [|left; simpl; solve_only_effects].
  right. split; [done|].
  match goal with |- context [event1 flags current ?m ?s1] =>
    destruct (event_final flags current 1 m s1) as (ev & Hfin & _);
    change (event1 flags current m s1) with (event flags current 1 m s1);
    destruct (event flags current 1 m s1) as [u s2|e s2]; simpl in Hfin; subst s2
  end.
  all: exists ([EDllLoad p] ++ ev), h, p; simpl;
    unfold append_effects, add_effect, set_shared_library_path, set_shared_library_handle;
    simpl; f_equal; by rewrite <- !app_assoc.
Qed.

Lemma compilation_tick_shape (thread : Thread) (s : VM) :
  final_state (compilation_tick thread s) = s
  ∨ ∃ a c c', heap s !! a = Some (OJVMCICompileState c)
              ∧ final_state (compilation_tick thread s)
                = set_heap (<[a := OJVMCICompileState c']> (heap s)) s.
Proof.
  unfold compilation_tick, inc_compilation_ticks, bind, read, deref_task, deref_state,
    update, ret.
  repeat case_match; simplify_eq/=; try (by left).
  right. eauto.
Qed.

(** [initialize_globals] returns from every state. *)
Lemma initialize_globals_returns (flags : Flags) (os : Platform) (s : VM) :
  ∃ s', initialize_globals flags os s = Ret tt s'.
Proof.
  destruct (initialize_event_logs_spec flags os s) as (s1 & Hrun1 & _).
  rewrite initialize_globals_unfold, (bind_ret_l _ _ _ _ _ Hrun1).
  destruct (initialize_runtimes_wf flags s1) as (s' & -> & _). eauto.
Qed.

(** Every call changes the state in one of the five ways. *)
Lemma run_call_shape (flags : Flags) (os : Platform) (c : option Thread * Call) (s : VM) :
  CallShape flags os s (final_state (run_call flags os c s)).
Proof.
  destruct c as [current [loader modules| | |load|thread|f|b| | | |level msg]];
    unfold run_call; simpl.
  - rewrite (proj1 (ignore_final _ _)).
    destruct (can_initialize_JVMCI_effects os loader modules s) as (es & ->).
    by eapply shape_effects.
  - destruct (initialize_compiler_effects flags s) as (es & ->). by eapply shape_effects.
  - destruct (initialize_globals_returns flags os s) as (s' & Hrun).
    rewrite Hrun. by apply shape_init.
  - rewrite (proj1 (ignore_final _ _)).
    destruct (get_shared_library_shape flags os current load s)
      as [(es & ->)|(Hnull & es & h & p & ->)].
    + by eapply shape_effects.
    + by eapply shape_loaded.
  - rewrite (proj1 (ignore_final _ _)).
    destruct (compilation_tick_shape thread s) as [->|(a & c & c' & Ha & ->)].
    + eapply shape_effects. by rewrite append_effects_nil.
    + by eapply shape_tick.
  - destruct (metadata_do_effects f s) as (es & ->). by eapply shape_effects.
  - destruct (do_unloading_effects b s) as (es & ->). by eapply shape_effects.
  - eapply (shape_effects _ _ _ _ []). by rewrite append_effects_nil.
  - destruct (shutdown_shape flags current s) as [->|(es & o & ->)].
    + eapply (shape_effects _ _ _ _ []). by rewrite append_effects_nil.
    + by eapply shape_shutdown.
  - eapply (shape_effects _ _ _ _ []). by rewrite append_effects_nil.
  - destruct (event_effects flags current level msg s) as (es & ->). by eapply shape_effects.
Qed.

(** A property every shape keeps holds after every sequence of calls. *)
Lemma run_calls_invariant (flags : Flags) (os : Platform) (P : VM -> Prop) :
  (∀ s s', P s -> CallShape flags os s s' -> P s') ->
  ∀ cs s, P s -> P (final_state (run_calls flags os cs s)).
Proof.
  intros Hstep. induction cs as [|c cs IH]; intros s Hs; [done|].
  rewrite run_calls_cons.
  pose proof (Hstep _ _ Hs (run_call_shape flags os c s)) as H1.
  destruct (run_call flags os c s) as [u s1|e s1]; simpl in H1; [by apply IH|done].
Qed.

(** ** What the shapes keep *)

Lemma initialize_runtimes_frame (flags : Flags) (s1 s' : VM) :
  initialize_runtimes flags s1 = Ret tt s' ->
  s' = set_heap (heap s')
         (set_compiler_runtime (_compiler_runtime s')
            (set_java_runtime (_java_runtime s') s1)).
Proof.
  unfold initialize_runtimes, new_JVMCIRuntime, new, bind, update, read.
  destruct (UseJVMCINativeLibrary flags); by intros [= <-].
Qed.

(** What [initialize_globals] sets and what it leaves alone. *)
Lemma initialize_globals_total (flags : Flags) (os : Platform) (s s' : VM) :
  initialize_globals flags os s = Ret tt s' ->
  is_runtime s' (_compiler_runtime s') = true
  ∧ is_runtime s' (_java_runtime s') = true
  ∧ arranged flags s'
  ∧ heap s ⊆ heap s'
  ∧ (∀ a, _compiler_runtime s' = Some a ∨ _java_runtime s' = Some a -> a ∉ dom (heap s))
  ∧ s' = set_heap (heap s')
           (set_compiler_runtime (_compiler_runtime s')
              (set_java_runtime (_java_runtime s')
                 (set_events (_events s') (set_verbose_events (_verbose_events s') s)))).
Proof.
  destruct (initialize_event_logs_spec flags os s) as (s1 & Hrun1 & Hsub1 & Hs1 & _).
  rewrite initialize_globals_unfold, (bind_ret_l _ _ _ _ _ Hrun1). intros Hrun.
  destruct (initialize_runtimes_wf flags s1)
    as (s2 & Hrun2 & Hc & Hj & _ & Hsub & Hes & Hvs & _).
  rewrite Hrun in Hrun2. injection Hrun2 as <-.
  assert (Hdom : dom (heap s) ⊆ dom (heap s1)) by by apply subseteq_dom.
  assert (Hcn : _compiler_runtime s' ≠ NULL).
  { apply bool_decide_eq_true in Hc as [t Ht]. intros Hn. by rewrite Hn in Ht. }
  assert (Hjn : _java_runtime s' ≠ NULL).
  { apply bool_decide_eq_true in Hj as [t Ht]. intros Hn. by rewrite Hn in Ht. }
  split; [done|]. split; [done|].
  pose proof (initialize_runtimes_frame flags s1 s' Hrun) as Hframe.
  assert (Harr : (if UseJVMCINativeLibrary flags
                  then _compiler_runtime s' ≠ _java_runtime s'
                  else _compiler_runtime s' = _java_runtime s')
                 ∧ ∀ a, _compiler_runtime s' = Some a ∨ _java_runtime s' = Some a ->
                        a ∉ dom (heap s)).
  { destruct (UseJVMCINativeLibrary flags) eqn:Hmode.
    - destruct (initialize_runtimes_dual flags s1 Hmode)
        as (s2 & c & j & Hrun2 & Hc2 & Hj2 & Hne & _ & _ & Hcd & Hjd & _).
      rewrite Hrun in Hrun2. injection Hrun2 as <-.
      split; [congruence|]. intros a [Ha|Ha]; set_solver.
    - destruct (initialize_runtimes_single flags s1 Hmode)
        as (s2 & c & Hrun2 & Hc2 & Hj2 & _ & Hcd & _).
      rewrite Hrun in Hrun2. injection Hrun2 as <-.
      split; [congruence|]. intros a [Ha|Ha]; set_solver. }
  destruct Harr as [Harr Hfresh].
  split; [by repeat split|]. split; [by etrans|]. split; [exact Hfresh|].
  rewrite Hframe at 1. rewrite Hs1. rewrite <- Hes, <- Hvs. done.
Qed.

(** Counting a tick changes neither what is a runtime nor what is a log. *)
Lemma table_of_tick (s : VM) (a : addr) (c c' : JVMCICompileState) (p : ptr) :
  heap s !! a = Some (OJVMCICompileState c) ->
  table_of (set_heap (<[a := OJVMCICompileState c']> (heap s)) s) p = table_of s p.
Proof.
  intros Ha. unfold table_of. destruct p as [b|]; [|done]. simpl.
  destruct (decide (a = b)) as [->|Hab].
  - by rewrite lookup_insert_eq, Ha.
  - rewrite lookup_insert_ne by done.
    destruct (heap s !! b) as [[r| | | |]|]; try done.
    destruct (_metadata_handles r) as [t|]; [|done].
    destruct (decide (a = t)) as [->|Hat].
    + by rewrite lookup_insert_eq, Ha.
    + by rewrite lookup_insert_ne.
Qed.

Lemma is_log_tick (s : VM) (a : addr) (c c' : JVMCICompileState) (p : ptr) :
  heap s !! a = Some (OJVMCICompileState c) ->
  is_log (set_heap (<[a := OJVMCICompileState c']> (heap s)) s) p = is_log s p.
Proof.
  intros Ha. unfold is_log. destruct p as [b|]; [|done]. simpl.
  destruct (decide (a = b)) as [->|Hab].
  - by rewrite lookup_insert_eq, Ha.
  - by rewrite lookup_insert_ne.
Qed.

Lemma wf_vm_tick (s : VM) (a : addr) (c c' : JVMCICompileState) :
  heap s !! a = Some (OJVMCICompileState c) ->
  wf_vm (set_heap (<[a := OJVMCICompileState c']> (heap s)) s) = wf_vm s.
Proof.
  intros Ha. unfold wf_vm, is_runtime. simpl.
  by rewrite !(table_of_tick s a c c' _ Ha), !(is_log_tick s a c c' _ Ha).
Qed.

Lemma shape_wf (flags : Flags) (os : Platform) (s s' : VM) :
  wf_vm s = true -> CallShape flags os s s' -> wf_vm s' = true.
Proof.
  intros Hwf [es ->|es o ->|es h p _ ->|a c c' Ha ->|Hinit]; try exact Hwf.
  - by rewrite (wf_vm_tick s a c c' Ha).
  - destruct (initialize_globals_ready flags os s Hwf) as (s2 & Hrun & Hwf2 & _).
    rewrite Hinit in Hrun. by injection Hrun as <-.
Qed.

Lemma shape_logs_ready (flags : Flags) (os : Platform) (s s' : VM) :
  wf_vm s = true ∧ logs_ready flags s ->
  CallShape flags os s s' ->
  wf_vm s' = true ∧ logs_ready flags s'.
Proof.
  intros [Hwf Hready] Hshape. split; [by eapply shape_wf|].
  destruct Hshape as [es ->|es o ->|es h p _ ->|a c c' Ha ->|Hinit]; try exact Hready.
  - intros level Hlevel. specialize (Hready level Hlevel).
    unfold channel_ready in *. by rewrite (is_log_tick s a c c' _ Ha).
  - destruct (initialize_globals_ready flags os s Hwf) as (s2 & Hrun & _ & _ & _ & _ & Hr).
    rewrite Hinit in Hrun. by injection Hrun as <-.
Qed.

Lemma shape_paired (flags : Flags) (os : Platform) (s s' : VM) :
  runtimes_paired s -> CallShape flags os s s' -> runtimes_paired s'.
Proof.
  intros Hp [es ->|es o ->|es h p _ ->|a c c' Ha ->|Hinit]; try exact Hp.
  destruct (initialize_globals_total flags os s s' Hinit) as (_ & _ & (Hc & Hj & _) & _).
  unfold runtimes_paired.
  destruct (_java_runtime s'), (_compiler_runtime s'); done.
Qed.

Lemma shape_arranged (flags : Flags) (os : Platform) (s s' : VM) :
  arranged flags s -> CallShape flags os s s' -> arranged flags s'.
Proof.
  intros Hp [es ->|es o ->|es h p _ ->|a c c' Ha ->|Hinit]; try exact Hp.
  by destruct (initialize_globals_total flags os s s' Hinit) as (_ & _ & Harr & _).
Qed.

Lemma shape_published (flags : Flags) (os : Platform) (s s' : VM) :
  published_together s -> CallShape flags os s s' -> published_together s'.
Proof.
  intros Hp [es ->|es o ->|es h p _ ->|a c c' Ha ->|Hinit]; try exact Hp.
  - done.
  - destruct (initialize_globals_total flags os s s' Hinit) as (_ & _ & _ & _ & _ & ->).
    exact Hp.
Qed.

Lemma shape_in_shutdown (flags : Flags) (os : Platform) (s s' : VM) :
  _in_shutdown s = true -> CallShape flags os s s' -> _in_shutdown s' = true.
Proof.
  intros Hp [es ->|es o ->|es h p _ ->|a c c' Ha ->|Hinit]; try exact Hp.
  - done.
  - destruct (initialize_globals_total flags os s s' Hinit) as (_ & _ & _ & _ & _ & ->).
    exact Hp.
Qed.

Lemma shape_is_initialized (flags : Flags) (os : Platform) (s s' : VM) :
  CallShape flags os s s' -> _is_initialized s' = _is_initialized s.
Proof.
  intros [es ->|es o ->|es h p _ ->|a c c' Ha ->|Hinit]; try done.
  by destruct (initialize_globals_total flags os s s' Hinit) as (_ & _ & _ & _ & _ & ->).
Qed.

(** ** Invariants of call sequences *)

(** X1. No entry point leaves a dangling pointer in a static field: from a
    state in which [_compiler_runtime], [_java_runtime], [_events] and
    [_verbose_events] are each NULL or point to a live object of their
    type (the static initialisers are such a state), every sequence of
    calls, by whichever threads, ends in such a state. *)
Theorem wf_vm_invariant (flags : Flags) (os : Platform)
    (cs : list (option Thread * Call)) (s : VM) :
  wf_vm s = true -> wf_vm (final_state (run_calls flags os cs s)) = true.
Proof.
  apply (run_calls_invariant flags os (fun s => wf_vm s = true)).
  intros s0 s' H0 Hshape. by eapply shape_wf.
Qed.

Lemma wf_vm_invariant_witness :
  wf_vm (final_state (run_calls flags_dual os_good
           [(Some main_thread, CallInitializeGlobals);
            (Some compiler_thread, CallCompilationTick compiler_thread);
            (Some main_thread, CallInitializeGlobals);
            (Some main_thread, CallShutdown)] vm_compiling)) = true.
Proof.
  apply (wf_vm_invariant flags_dual os_good _ vm_compiling). reflexivity.
Defined.

(** What [metadata_do] and [do_unloading] do when both runtimes are set. *)
Lemma bridge_tables (f : positive) (s : VM) (j c : addr) :
  wf_vm s = true ->
  _java_runtime s = Some j ->
  _compiler_runtime s = Some c ->
  ∃ tj tc,
    table_of s (Some j) = Some tj ∧ table_of s (Some c) = Some tc
    ∧ (c = j ∨ tc ≠ tj)
    ∧ metadata_do f s
      = Ret tt (append_effects
                  (EMetadataDo tj f :: if bool_decide (c = j) then [] else [EMetadataDo tc f]) s)
    ∧ do_unloading true s
      = Ret tt (append_effects
                  (EDoUnloading tj :: if bool_decide (c = j) then [] else [EDoUnloading tc]) s).
Proof.
  intros (Hc & Hj & _ & _ & Hd)%wf_vm_inv Ej Ec. rewrite Ej, Ec in *.
  destruct (is_runtime_table s (Some j) Hj) as [tj Htj]; [done|].
  destruct (is_runtime_table s (Some c) Hc) as [tc Htc]; [done|].
  exists tj, tc. split; [done|]. split; [done|].
  split.
  { destruct Hd as [Hd|Hd]; [left; congruence|right; congruence]. }
  unfold metadata_do, do_unloading. munfold. rewrite Ej. simpl.
  rewrite (handles_metadata_do_ok _ _ _ _ Htj), (handles_do_unloading_ok _ _ _ Htj).
  simpl. rewrite Ec, Ej. simpl.
  destruct (decide (c = j)) as [Hcj|Hcj].
  - rewrite bool_decide_eq_false_2 by (intros ?; congruence).
    by rewrite bool_decide_eq_true_2.
  - rewrite bool_decide_eq_true_2 by congruence.
    rewrite (bool_decide_eq_false_2 (c = j)) by done.
    rewrite (handles_metadata_do_ok (add_effect _ s) (Some c) tc f) by done.
    rewrite (handles_do_unloading_ok (add_effect _ s) (Some c) tc) by done.
    unfold add_effect. by rewrite !append_effects_app.
Qed.

(** X2. After [initialize_globals], whatever calls follow (further calls
    of [initialize_globals] among them), the runtimes stay arranged as
    [UseJVMCINativeLibrary] asks, and [metadata_do] and [do_unloading(true)]
    return normally and touch two different handle tables when the flag
    is on and exactly one when it is off. *)
Theorem bridge_after_initialize (flags : Flags) (os : Platform)
    (cs : list (option Thread * Call)) (f : positive) (s : VM) :
  wf_vm s = true ->
  ∃ s2 es es',
    s2 = final_state (run_calls flags os cs (final_state (initialize_globals flags os s)))
    ∧ arranged flags s2
    ∧ metadata_do f s2 = Ret tt (append_effects es s2)
    ∧ do_unloading true s2 = Ret tt (append_effects es' s2)
    ∧ tables_touched es = tables_touched es'
    ∧ NoDup (tables_touched es)
    ∧ length (tables_touched es) = if UseJVMCINativeLibrary flags then 2%nat else 1%nat.
Proof.
  intros Hwf.
  destruct (initialize_globals_ready flags os s Hwf) as (s1 & Hrun & Hwf1 & _).
  rewrite Hrun. simpl.
  assert (Harr1 : arranged flags s1)
    by by destruct (initialize_globals_total flags os s s1 Hrun) as (_ & _ & H & _).
  set (s2 := final_state (run_calls flags os cs s1)).
  assert (Hwf2 : wf_vm s2 = true).
  { apply (run_calls_invariant flags os (fun s => wf_vm s = true)); [|done].
    intros s0 s' H0 Hshape. by eapply shape_wf. }
  assert (Harr2 : arranged flags s2).
  { apply (run_calls_invariant flags os (arranged flags)); [|done].
    intros s0 s' H0 Hshape. by eapply shape_arranged. }
  destruct Harr2 as (Hcn & Hjn & Hmode).
  destruct (_java_runtime s2) as [j|] eqn:Ej; [|done].
  destruct (_compiler_runtime s2) as [c|] eqn:Ec; [|done].
  destruct (bridge_tables f s2 j c Hwf2 Ej Ec) as (tj & tc & _ & _ & Hd & Hmd & Hdu).
  exists s2. eexists. eexists. split; [done|].
  split; [unfold arranged; by rewrite Ej, Ec|].
  split; [exact Hmd|]. split; [exact Hdu|].
  destruct (UseJVMCINativeLibrary flags).
  - rewrite bool_decide_eq_false_2 by congruence. simpl.
    split; [done|]. split; [|done].
    destruct Hd as [Hd|Hd]; [congruence|].
    apply NoDup_cons. split; [|apply NoDup_singleton].
    rewrite list_elem_of_singleton. congruence.
  - rewrite bool_decide_eq_true_2 by congruence. simpl.
    split; [done|]. split; [apply NoDup_singleton|done].
Qed.

Lemma bridge_after_initialize_witness :
  ∃ s2 es,
    s2 = final_state (run_calls flags_single os_good
                        [(Some main_thread, CallShutdown);
                         (Some main_thread, CallInitializeGlobals)]
                        (final_state (initialize_globals flags_single os_good initial_VM)))
    ∧ metadata_do 5 s2 = Ret tt (append_effects es s2)
    ∧ length (tables_touched es) = 1%nat.
Proof.
  destruct (bridge_after_initialize flags_single os_good
              [(Some main_thread, CallShutdown); (Some main_thread, CallInitializeGlobals)]
              5 initial_VM eq_refl)
    as (s2 & es & es' & Hs2 & _ & Hmd & _ & _ & _ & Hlen).
  exists s2, es. split; [exact Hs2|]. split; [exact Hmd|exact Hlen].
Defined.

(** ** Shutdown in any reachable state *)

(** With the log gate open for level 1 and no coarse log constructed,
    [shutdown] stops at the [guarantee] of [vlog], after it has taken the
    lock and stored the flag. *)
Lemma shutdown_stops_at_guarantee (flags : Flags) (t : Thread) (s : VM) :
  JVMCI_lock_owner s = None ->
  log_gate flags 1 = true ->
  _events s = NULL ->
  shutdown flags (Some t) s
  = Stop (GuaranteeFailed "JVMCI event log not yet initialized") (shutdown_flagged t s).
Proof.
  intros Hfree Hgate Hnull.
  unfold shutdown. unfold bind at 1. unfold MutexLocker_lock. rewrite Hfree.
  unfold bind at 1, update at 1. unfold bind at 1, emit at 1, update at 1.
  unfold bind at 1, JVMCI_event_1.
  change (event1 flags (Some t) "shutting down JVMCI"
            (add_effect (EStoreInShutdown true)
               (set_in_shutdown true
                  (add_effect ELock (set_lock_owner (Some (thread_id t)) s)))))
    with (event flags (Some t) 1 "shutting down JVMCI" (shutdown_flagged t s)).
  unfold event, LOG_TRACE.
  by rewrite (bind_stop _ _ _ _ _
                (vlog_null flags (Some t) 1 "shutting down JVMCI" (shutdown_flagged t s)
                   Hgate Hnull)).
Qed.

Lemma shutdown_lock_held (flags : Flags) (t : Thread) (s : VM) :
  JVMCI_lock_owner s ≠ None -> shutdown flags (Some t) s = Stop WouldBlock s.
Proof.
  intros Hheld. unfold shutdown. unfold bind at 1. unfold MutexLocker_lock.
  by destruct (JVMCI_lock_owner s).
Qed.

Lemma channel_not_ready (flags : Flags) (level : Z) (s : VM) :
  wf_vm s = true ->
  channel_ready flags level s = false ->
  log_gate flags level = true ∧ selected_channel level s = NULL.
Proof.
  intros (_ & _ & He & Hv & _)%wf_vm_inv. unfold channel_ready, selected_channel.
  destruct (log_gate flags level); simpl; [|done]. intros Hlog. split; [done|].
  destruct (level =? 1).
  - rewrite Hlog, orb_false_r in He. by destruct (_events s).
  - rewrite Hlog, orb_false_r in Hv. by destruct (_verbose_events s).
Qed.

(** X3. The two runtime fields are set and cleared together: from a state
    where both are NULL or both are set, every sequence of calls ends in
    such a state.  So in a state reached from a well-formed one, a call of
    [shutdown] by an attached thread never dereferences a NULL or dangling
    pointer: it returns, or it finds the lock held, or it stops at the
    [guarantee] of a log that was not constructed. *)
Theorem shutdown_never_bad_pointer (flags : Flags) (os : Platform)
    (cs : list (option Thread * Call)) (t : Thread) (s : VM) :
  wf_vm s = true ->
  runtimes_paired s ->
  ∃ s', s' = final_state (run_calls flags os cs s)
    ∧ runtimes_paired s'
    ∧ (returns (shutdown flags (Some t) s') = true
       ∨ shutdown flags (Some t) s' = Stop WouldBlock s'
       ∨ shutdown flags (Some t) s'
         = Stop (GuaranteeFailed "JVMCI event log not yet initialized")
                (shutdown_flagged t s')).
Proof.
  intros Hwf Hpair. eexists. split; [reflexivity|].
  set (s' := final_state (run_calls flags os cs s)).
  assert (Hwf' : wf_vm s' = true).
  { apply (run_calls_invariant flags os (fun s => wf_vm s = true)); [|done].
    intros s0 s1 H0 Hshape. by eapply shape_wf. }
  assert (Hpair' : runtimes_paired s').
  { apply (run_calls_invariant flags os runtimes_paired); [|done].
    intros s0 s1 H0 Hshape. by eapply shape_paired. }
  split; [done|].
  destruct (JVMCI_lock_owner s') as [o|] eqn:Hlock.
  { right. left. apply shutdown_lock_held. congruence. }
  destruct (channel_ready flags 1 s') eqn:Hready.
  - left.
    assert (Hnull : _java_runtime s' = NULL -> _compiler_runtime s' = NULL).
    { unfold runtimes_paired in Hpair'. intros Hj. rewrite Hj in Hpair'.
      by destruct (_compiler_runtime s'). }
    destruct (shutdown_run flags t s' Hlock Hready Hwf' Hnull) as (es & _ & _ & ->). done.
  - right. right.
    destruct (channel_not_ready flags 1 s' Hwf' Hready) as [Hgate Hsel].
    by apply shutdown_stops_at_guarantee.
Qed.

Lemma shutdown_never_bad_pointer_witness :
  ∃ s', s' = final_state (run_calls flags_dual os_good
                            [(Some main_thread, CallInitializeGlobals);
                             (Some main_thread, CallMetadataDo 5)] initial_VM)
    ∧ returns (shutdown flags_dual (Some main_thread) s') = true.
Proof.
  destruct (shutdown_never_bad_pointer flags_dual os_good
              [(Some main_thread, CallInitializeGlobals);
               (Some main_thread, CallMetadataDo 5)] main_thread initial_VM
              eq_refl eq_refl) as (s' & Hs' & _ & _).
  exists s'. split; [exact Hs'|]. rewrite Hs'. reflexivity.
Defined.

(** X13. Called before the coarse log is constructed, with logging enabled
    and a log level of 1 or more, [shutdown] does not get to the runtimes:
    it stops at [guarantee(events != NULL)] with [JVMCI_lock] still held by
    the caller and [_in_shutdown] already true. *)
Theorem shutdown_before_log_constructed (flags : Flags) (t : Thread) (s : VM) :
  JVMCI_lock_owner s = None ->
  LogEvents flags = true ->
  1 <= JVMCIEventLogLevel flags ->
  _events s = NULL ->
  ∃ s',
    shutdown flags (Some t) s
    = Stop (GuaranteeFailed "JVMCI event log not yet initialized") s'
    ∧ _in_shutdown s' = true
    ∧ JVMCI_lock_owner s' = Some (thread_id t)
    ∧ new_effects s s' = [ELock; EStoreInShutdown true].
Proof.
  intros Hfree Hlog Hlevel Hnull.
  exists (shutdown_flagged t s). split.
  - apply shutdown_stops_at_guarantee; try done. by apply log_gate_true.
  - split; [done|]. split; [done|]. apply new_effects_eq. simpl. by rewrite <- app_assoc.
Qed.

Lemma shutdown_before_log_constructed_witness :
  ∃ s',
    shutdown flags_single (Some main_thread) initial_VM
    = Stop (GuaranteeFailed "JVMCI event log not yet initialized") s'
    ∧ _in_shutdown s' = true.
Proof.
  destruct (shutdown_before_log_constructed flags_single main_thread initial_VM)
    as (s' & Hrun & Hflag & _); [reflexivity|reflexivity|by vm_compute|reflexivity|].
  exists s'. split; [exact Hrun|exact Hflag].
Defined.

(** ** The event logs *)

Lemma initialize_event_logs_channels (flags : Flags) (os : Platform) (s : VM) :
  ∃ s1,
    initialize_event_logs flags os s = Ret tt s1
    ∧ heap s ⊆ heap s1
    ∧ (if LogEvents flags && (0 <? JVMCIEventLogLevel flags)
       then ∃ e l, _events s1 = Some e ∧ heap s1 !! e = Some (OStringEventLog l)
                   ∧ el_name l = "JVMCI Events"%string ∧ e ∉ dom (heap s)
       else _events s1 = _events s)
    ∧ (if LogEvents flags && (1 <? JVMCIEventLogLevel flags)
       then ∃ v l, _verbose_events s1 = Some v ∧ heap s1 !! v = Some (OStringEventLog l)
                   ∧ el_name l = "Verbose JVMCI Events"%string ∧ v ∉ dom (heap s)
       else _verbose_events s1 = _verbose_events s).
Proof.
  unfold initialize_event_logs.
  destruct (LogEvents flags); simpl; [|by exists s].
  destruct (0 <? JVMCIEventLogLevel flags) eqn:H0; simpl.
  2:{ replace (1 <? JVMCIEventLogLevel flags) with false by lia. by exists s. }
  unfold new_StringEventLog, bind at 1.
  destruct (new_spec (OStringEventLog
              {| el_name := "JVMCI Events"; el_handle := "jvmci";
                 el_count := wrap_int (LogEventsBufferEntries flags) |}) s)
    as (e & -> & He).
  unfold bind at 1, update at 1.
  destruct (1 <? JVMCIEventLogLevel flags) eqn:H1.
  - match goal with |- context [bind (new ?o) _ ?s] =>
      destruct (new_spec o s) as (v & Hv & Hvd); unfold bind; rewrite Hv end.
    simpl in Hvd. rewrite dom_insert_L, not_elem_of_union, not_elem_of_singleton in Hvd.
    unfold update. eexists. split; [reflexivity|]. simpl.
    split; [|split].
    + repeat (apply insert_fresh_subseteq;
        [|rewrite ?dom_insert_L, ?not_elem_of_union, ?not_elem_of_singleton; done]).
      done.
    + eexists e, _. rewrite lookup_insert_ne by tauto. rewrite lookup_insert_eq. done.
    + eexists v, _. rewrite lookup_insert_eq. split; [done|]. split; [done|]. tauto.
  - eexists. split; [reflexivity|]. simpl.
    split; [by apply insert_fresh_subseteq|]. split; [|done].
    eexists e, _. by rewrite lookup_insert_eq.
Qed.

Lemma initialize_globals_channels_verbose (flags : Flags) (os : Platform) (s : VM) :
  ∃ s',
    initialize_globals flags os s = Ret tt s'
    ∧ if LogEvents flags && (1 <? JVMCIEventLogLevel flags)
      then _verbose_events s' ≠ NULL
      else _verbose_events s' = _verbose_events s.
Proof.
  destruct (initialize_event_logs_channels flags os s) as (s1 & Hrun1 & _ & _ & Hv).
  rewrite initialize_globals_unfold, (bind_ret_l _ _ _ _ _ Hrun1).
  destruct (initialize_runtimes_wf flags s1) as (s' & -> & _ & _ & _ & _ & _ & Hvs & _).
  exists s'. split; [done|]. rewrite Hvs.
  destruct (LogEvents flags && (1 <? JVMCIEventLogLevel flags)); [|done].
  destruct Hv as (v & l & -> & _). done.
Qed.

(** X4. Which event logs [initialize_globals] constructs is decided by
    [LogEvents] and [JVMCIEventLogLevel] alone: the coarse log "JVMCI
    Events" exactly when logging is on and the level is above 0, the
    verbose log "Verbose JVMCI Events" exactly when logging is on and the
    level is above 1, each as a new object; a field whose log is not
    constructed keeps the value it had. *)
Theorem initialize_globals_channels (flags : Flags) (os : Platform) (s : VM) :
  ∃ s',
    initialize_globals flags os s = Ret tt s'
    ∧ (if LogEvents flags && (0 <? JVMCIEventLogLevel flags)
       then ∃ e l, _events s' = Some e ∧ heap s' !! e = Some (OStringEventLog l)
                   ∧ el_name l = "JVMCI Events"%string ∧ e ∉ dom (heap s)
       else _events s' = _events s)
    ∧ (if LogEvents flags && (1 <? JVMCIEventLogLevel flags)
       then ∃ v l, _verbose_events s' = Some v ∧ heap s' !! v = Some (OStringEventLog l)
                   ∧ el_name l = "Verbose JVMCI Events"%string ∧ v ∉ dom (heap s)
       else _verbose_events s' = _verbose_events s).
Proof.
  destruct (initialize_event_logs_channels flags os s) as (s1 & Hrun1 & Hsub1 & He & Hv).
  rewrite initialize_globals_unfold, (bind_ret_l _ _ _ _ _ Hrun1).
  destruct (initialize_runtimes_wf flags s1)
    as (s' & -> & _ & _ & _ & Hsub & Hes & Hvs & _).
  exists s'. split; [done|]. rewrite Hes, Hvs. split.
  - destruct (LogEvents flags && (0 <? JVMCIEventLogLevel flags)); [|done].
    destruct He as (e & l & H1 & H2 & H3 & H4). exists e, l.
    split; [done|]. split; [exact (lookup_weaken _ _ _ _ H2 Hsub)|done].
  - destruct (LogEvents flags && (1 <? JVMCIEventLogLevel flags)); [|done].
    destruct Hv as (v & l & H1 & H2 & H3 & H4). exists v, l.
    split; [done|]. split; [exact (lookup_weaken _ _ _ _ H2 Hsub)|done].
Qed.

(** X5. Once [initialize_globals] has run, no call of [event] at a level
    of 1 or more fails: whatever calls were made in between, by whichever
    threads, the call returns and adds nothing but log entries and trace
    output. *)
Theorem events_after_initialize (flags : Flags) (os : Platform)
    (cs : list (option Thread * Call)) (current : option Thread)
    (level : Z) (msg : string) (s : VM) :
  wf_vm s = true ->
  1 <= level ->
  ∃ s2 es,
    s2 = final_state (run_calls flags os cs (final_state (initialize_globals flags os s)))
    ∧ event flags current level msg s2 = Ret tt (append_effects es s2)
    ∧ Forall (fun e => is_logv e || is_tty e = true) es.
Proof.
  intros Hwf Hlevel.
  destruct (initialize_globals_ready flags os s Hwf) as (s1 & Hrun & Hwf1 & _ & _ & _ & Hr1).
  rewrite Hrun. simpl.
  set (s2 := final_state (run_calls flags os cs s1)).
  assert (H2 : wf_vm s2 = true ∧ logs_ready flags s2).
  { apply (run_calls_invariant flags os (fun s => wf_vm s = true ∧ logs_ready flags s));
      [|by split].
    intros s0 s' H0 Hshape. by eapply shape_logs_ready. }
  destruct H2 as [_ Hready].
  destruct (event_ready flags current level msg s2 (Hready level Hlevel)) as (prefix & Hev).
  destruct (event_final flags current level msg s2) as (es & Hfin & Hes).
  rewrite Hev in Hfin. simpl in Hfin.
  exists s2, es. split; [done|]. split; [|done]. by rewrite Hev, Hfin.
Qed.

Lemma events_after_initialize_witness :
  ∃ s2 es,
    s2 = final_state (run_calls flags_dual os_good
                        [(Some main_thread, CallShutdown)]
                        (final_state (initialize_globals flags_dual os_good initial_VM)))
    ∧ event flags_dual None 3 "late" s2 = Ret tt (append_effects es s2).
Proof.
  destruct (events_after_initialize flags_dual os_good [(Some main_thread, CallShutdown)]
              None 3 "late" initial_VM) as (s2 & es & Hs2 & Hev & _);
    [reflexivity|by vm_compute|].
  exists s2, es. split; [exact Hs2|exact Hev].
Defined.

(** X6. A call of [event] at a level above the configured trace level, with
    logging off or the level also above the configured log level, does
    nothing at all: it returns with the state unchanged, in every state,
    the static initialisers included, and on every thread. *)
Theorem event_silent (flags : Flags) (current : option Thread) (level : Z)
    (msg : string) (s : VM) :
  LogEvents flags = false ∨ JVMCIEventLogLevel flags < level ->
  JVMCITraceLevel flags < level ->
  event flags current level msg s = Ret tt s.
Proof.
  intros Hlog Htrace. unfold event, LOG_TRACE, bind.
  rewrite vlog_closed.
  - unfold vtrace. by replace (level <=? JVMCITraceLevel flags) with false by lia.
  - unfold log_gate. destruct Hlog as [->|Hlog]; [done|].
    replace (level <=? JVMCIEventLogLevel flags) with false by lia. apply andb_false_r.
Qed.

Lemma event_silent_witness :
  event flags_single (Some main_thread) 2 "detail" initial_VM = Ret tt initial_VM.
Proof.
  apply (event_silent flags_single (Some main_thread) 2 "detail" initial_VM).
  - right. by vm_compute.
  - by vm_compute.
Defined.

(** ** Loading and publishing the library *)

(** X7. A loading call that succeeds looks the library up in [JVMCILibPath]
    when that flag is set and in the VM's library directory otherwise,
    asks the loader once for the path [os::dll_locate_lib] produced,
    publishes the handle together with that path, then emits the level-1
    event, and returns the published handle and path. *)
Theorem library_load_publishes (flags : Flags) (os : Platform) (current : option Thread)
    (s : VM) (p : string) (h : addr) :
  _shared_library_handle s = NULL ->
  lock_assert_ok os current s = true ->
  dll_locate_lib os
    (match JVMCILibPath flags with Some lib_path => lib_path | None => get_dll_dir os end)
    (JVMCI_SHARED_LIBRARY_NAME os) = Some p ->
  (dll_load os p).1 = Some h ->
  channel_ready flags 1 s = true ->
  ∃ es s',
    get_shared_library flags os current true s = Ret (Some h, Some p) s'
    ∧ s' = append_effects (EDllLoad p :: es)
             (set_shared_library_path (Some p) (set_shared_library_handle (Some h) s))
    ∧ event1 flags current ("loaded JVMCI shared library from " +:+ p)
        (set_shared_library_path (Some p)
           (set_shared_library_handle (Some h) (add_effect (EDllLoad p) s)))
      = Ret tt s'
    ∧ dll_loads (new_effects s s') = 1%nat.
Proof.
  intros Hnull Hlock Hloc Hload Hready.
  rewrite (get_shared_library_slow _ _ _ _ Hnull), Hlock.
  unfold located, library_dir. rewrite Hloc, Hload.
  match goal with |- context [event1 flags current ?m ?s1] =>
    destruct (event_ready flags current 1 m s1 Hready) as (prefix & Hev);
    destruct (event_final flags current 1 m s1) as (es & Hfin & Hes);
    change (event1 flags current m s1) with (event flags current 1 m s1)
  end.
  rewrite Hev in Hfin. simpl in Hfin. rewrite Hev, Hfin. simpl.
  exists es. eexists. split; [reflexivity|].
  assert (Heq : append_effects es
                  (set_shared_library_path (Some p)
                     (set_shared_library_handle (Some h) (add_effect (EDllLoad p) s)))
                = append_effects (EDllLoad p :: es)
                    (set_shared_library_path (Some p)
                       (set_shared_library_handle (Some h) s))).
  { unfold append_effects, add_effect, set_shared_library_path, set_shared_library_handle.
    simpl. f_equal. by rewrite <- app_assoc. }
  split; [exact Heq|]. split; [done|].
  rewrite (new_effects_eq s _ ([EDllLoad p] ++ es)) by (simpl; by rewrite <- app_assoc).
  rewrite dll_loads_app, (log_tty_no_load es Hes). done.
Qed.

Lemma library_load_publishes_witness :
  ∃ s',
    get_shared_library flags_dual os_good (Some main_thread) true vm_dual_locked
    = Ret (Some 77%positive, Some "/graal/libjvmcicompiler.so"%string) s'
    ∧ dll_loads (new_effects vm_dual_locked s') = 1%nat.
Proof.
  destruct (library_load_publishes flags_dual os_good (Some main_thread) vm_dual_locked
              "/graal/libjvmcicompiler.so" 77%positive)
    as (es & s' & Hrun & _ & _ & Hone); try reflexivity.
  exists s'. split; [exact Hrun|exact Hone].
Defined.

(** X8. In a debug build, a call that has to load ([load] true, no handle
    published) by a thread that does not own [JVMCI_lock] stops at the
    assert: the loader is not asked and nothing is published. *)
Theorem load_asserts_lock_owner (flags : Flags) (os : Platform) (current : option Thread)
    (s : VM) :
  _shared_library_handle s = NULL ->
  ASSERT os = true ->
  ¬ (is_Some current ∧ JVMCI_lock_owner s = thread_id <$> current) ->
  get_shared_library flags os current true s = Stop (AssertFailed "must be") s.
Proof.
  intros Hnull Hdebug Hlock.
  rewrite (get_shared_library_slow _ _ _ _ Hnull).
  unfold lock_assert_ok. rewrite Hdebug. simpl.
  by rewrite bool_decide_eq_false_2.
Qed.

Lemma load_asserts_lock_owner_witness :
  get_shared_library flags_dual os_good (Some compiler_thread) true vm_dual_locked
  = Stop (AssertFailed "must be") vm_dual_locked.
Proof.
  apply (load_asserts_lock_owner flags_dual os_good (Some compiler_thread) vm_dual_locked).
  - reflexivity.
  - reflexivity.
  - intros [_ Hown]. vm_compute in Hown. discriminate Hown.
Defined.

(** X9. The handle and the path are published together: from a state in
    which [_shared_library_handle] and [_shared_library_path] are both
    NULL or both set, every sequence of calls ends in such a state. *)
Theorem library_published_together (flags : Flags) (os : Platform)
    (cs : list (option Thread * Call)) (s : VM) :
  published_together s ->
  published_together (final_state (run_calls flags os cs s)).
Proof.
  apply (run_calls_invariant flags os published_together).
  intros s0 s' H0 Hshape. by eapply shape_published.
Qed.

Lemma library_published_together_witness :
  published_together
    (final_state (run_calls flags_dual os_good
                    [(Some main_thread, CallGetSharedLibrary true);
                     (Some main_thread, CallShutdown)] vm_dual_locked)).
Proof.
  apply (library_published_together flags_dual os_good _ vm_dual_locked). reflexivity.
Defined.

(** ** The lifecycle flags *)

Lemma shutdown_sets_flag (flags : Flags) (t : Thread) (s : VM) :
  JVMCI_lock_owner s = None ->
  _in_shutdown (final_state (shutdown flags (Some t) s)) = true.
Proof.
  intros Hfree.
  unfold shutdown. unfold bind at 1. unfold MutexLocker_lock. rewrite Hfree.
  unfold bind at 1, update at 1. unfold bind at 1, emit at 1, update at 1.
  unfold bind at 1, JVMCI_event_1.
  match goal with |- context [event1 flags (Some t) ?m ?s2] =>
    destruct (event_final flags (Some t) 1 m s2) as (ev & Hfin & Hev);
    change (event1 flags (Some t) m s2) with (event flags (Some t) 1 m s2);
    destruct (event flags (Some t) 1 m s2) as [u s3|e s3]; simpl in Hfin; subst s3
  end; [|done].
  unfold bind at 1, MutexLocker_unlock.
  match goal with |- context [final_state (?m ?s4)] =>
    destruct (shutdown_phase2_effects s4) as (d & ->) end.
  done.
Qed.

Lemma run_call_keeps_in_shutdown (flags : Flags) (os : Platform)
    (c : option Thread * Call) (s : VM) :
  is_shutdown_call c.2 = false ->
  _in_shutdown (final_state (run_call flags os c s)) = _in_shutdown s.
Proof.
  destruct c as [current [loader modules| | |load|thread|f|b| | | |level msg]];
    unfold run_call; simpl; try done; intros _.
  - rewrite (proj1 (ignore_final _ _)).
    by destruct (can_initialize_JVMCI_effects os loader modules s) as (es & ->).
  - by destruct (initialize_compiler_effects flags s) as (es & ->).
  - destruct (initialize_globals_returns flags os s) as (s' & Hrun). rewrite Hrun. simpl.
    by destruct (initialize_globals_total flags os s s' Hrun) as (_ & _ & _ & _ & _ & ->).
  - rewrite (proj1 (ignore_final _ _)).
    by destruct (get_shared_library_shape flags os current load s)
      as [(es & ->)|(Hnull & es & h & p & ->)].
  - rewrite (proj1 (ignore_final _ _)).
    by destruct (compilation_tick_shape thread s) as [->|(a & c & c' & Ha & ->)].
  - by destruct (metadata_do_effects f s) as (es & ->).
  - by destruct (do_unloading_effects b s) as (es & ->).
  - by destruct (event_effects flags current level msg s) as (es & ->).
Qed.

(** X10. [_in_shutdown] only ever goes from false to true, and only
    [shutdown] sets it: once true it stays true under every sequence of
    calls; a sequence without a call of [shutdown] leaves it as it was;
    and a call of [shutdown] that gets the lock leaves it true, also when
    the call then stops. *)
Theorem in_shutdown_monotone (flags : Flags) (os : Platform)
    (cs : list (option Thread * Call)) (s : VM) :
  (_in_shutdown s = true ->
   in_shutdown (final_state (run_calls flags os cs s))
   = Ret true (final_state (run_calls flags os cs s)))
  ∧ (Forall (fun c => is_shutdown_call c.2 = false) cs ->
     _in_shutdown (final_state (run_calls flags os cs s)) = _in_shutdown s)
  ∧ (∀ t, JVMCI_lock_owner s = None ->
          _in_shutdown (final_state (shutdown flags (Some t) s)) = true).
Proof.
  split; [|split].
  - intros Hset. unfold in_shutdown, read. f_equal.
    apply (run_calls_invariant flags os (fun s => _in_shutdown s = true)); [|done].
    intros s0 s' H0 Hshape. by eapply shape_in_shutdown.
  - intros Hcs. revert s. induction Hcs as [|c cs Hc _ IH]; intros s; [done|].
    rewrite run_calls_cons.
    pose proof (run_call_keeps_in_shutdown flags os c s Hc) as H1.
    destruct (run_call flags os c s) as [u s1|e s1]; simpl in H1; [|done].
    by rewrite IH.
  - intros t Hfree. by apply shutdown_sets_flag.
Qed.

Lemma in_shutdown_monotone_witness :
  in_shutdown
    (final_state (run_calls flags_dual os_good
       [(Some main_thread, CallInitializeGlobals); (Some main_thread, CallMetadataDo 5)]
       (final_state (shutdown flags_dual (Some main_thread) vm_dual))))
  = Ret true
      (final_state (run_calls flags_dual os_good
         [(Some main_thread, CallInitializeGlobals); (Some main_thread, CallMetadataDo 5)]
         (final_state (shutdown flags_dual (Some main_thread) vm_dual))))
  ∧ _in_shutdown
      (final_state (run_calls flags_dual os_good
         [(Some main_thread, CallInitializeGlobals); (Some main_thread, CallMetadataDo 5)]
         (final_state (shutdown flags_dual (Some main_thread) vm_dual))))
    = _in_shutdown (final_state (shutdown flags_dual (Some main_thread) vm_dual))
  ∧ _in_shutdown
      (final_state (shutdown flags_dual (Some main_thread)
         (final_state (shutdown flags_dual (Some main_thread) vm_dual))))
    = true.
Proof.
  destruct (in_shutdown_monotone flags_dual os_good
              [(Some main_thread, CallInitializeGlobals); (Some main_thread, CallMetadataDo 5)]
              (final_state (shutdown flags_dual (Some main_thread) vm_dual)))
    as (Hstays & Hkept & Hsets).
  split; [|split].
  - apply Hstays. reflexivity.
  - apply Hkept. repeat constructor.
  - apply Hsets. reflexivity.
Defined.

(** X11. No entry point of jvmci.cpp writes [_is_initialized]: after every
    sequence of calls [is_compiler_initialized] returns what it returned
    before. *)
Theorem is_initialized_never_written (flags : Flags) (os : Platform)
    (cs : list (option Thread * Call)) (s : VM) :
  is_compiler_initialized (final_state (run_calls flags os cs s))
  = Ret (_is_initialized s) (final_state (run_calls flags os cs s)).
Proof.
  unfold is_compiler_initialized, read. f_equal.
  apply (run_calls_invariant flags os (fun s' => _is_initialized s' = _is_initialized s));
    [|done].
  intros s0 s' H0 Hshape. by rewrite (shape_is_initialized flags os s0 s' Hshape).
Qed.

(** ** Initialisation, once and again *)

Lemma is_runtime_in_heap (s : VM) (p : ptr) :
  is_runtime s p = true -> ∃ a r, p = Some a ∧ heap s !! a = Some (OJVMCIRuntime r).
Proof.
  intros [t Ht]%bool_decide_eq_true.
  apply table_of_Some in Ht as (a & r & -> & Ha & _). eauto.
Qed.

Lemma initialize_globals_compiler_role (flags : Flags) (os : Platform) (s s' : VM) :
  initialize_globals flags os s = Ret tt s' ->
  ∃ c, _compiler_runtime s' = Some c ∧ role_of s' (Some c) = Some 0.
Proof.
  destruct (initialize_event_logs_spec flags os s) as (s1 & Hrun1 & _).
  rewrite initialize_globals_unfold, (bind_ret_l _ _ _ _ _ Hrun1). intros Hrun.
  destruct (UseJVMCINativeLibrary flags) eqn:Hmode.
  - destruct (initialize_runtimes_dual flags s1 Hmode)
      as (s2 & c & j & Hrun2 & Hc2 & _ & _ & Hrole & _).
    rewrite Hrun in Hrun2. injection Hrun2 as <-. eauto.
  - destruct (initialize_runtimes_single flags s1 Hmode)
      as (s2 & c & Hrun2 & Hc2 & _ & Hrole & _).
    rewrite Hrun in Hrun2. injection Hrun2 as <-. eauto.
Qed.

(** X12. [initialize_compiler] with [JVMCILibDumpJNIConfig] set never
    returns normally and never asks a runtime for its compiler.  Without
    the flag, after [initialize_globals] it calls [call_getCompiler] once,
    on the compiler runtime (the one of role 0, in either mode), and
    returns; before [initialize_globals], with [_compiler_runtime] NULL, it
    calls through the NULL pointer. *)
Theorem initialize_compiler_cases (flags : Flags) (os : Platform) (s : VM) :
  if JVMCILibDumpJNIConfig flags
  then returns (initialize_compiler flags s) = false
       ∧ new_effects s (final_state (initialize_compiler flags s)) = [EInitializeIds]
  else (∃ s1 c,
          initialize_globals flags os s = Ret tt s1
          ∧ _compiler_runtime s1 = Some c
          ∧ role_of s1 (Some c) = Some 0
          ∧ initialize_compiler flags s1 = Ret tt (add_effect (ECallGetCompiler c) s1))
       ∧ (_compiler_runtime s = NULL ->
          initialize_compiler flags s = Stop BadPointer s).
Proof.
  destruct (JVMCILibDumpJNIConfig flags) eqn:Hdump; split.
  - unfold initialize_compiler, bind, emit, update, abort. by rewrite Hdump.
  - unfold initialize_compiler, bind, emit, update, abort. rewrite Hdump.
    simpl. unfold add_effect. apply new_effects_append.
  - destruct (initialize_globals_returns flags os s) as (s1 & Hrun).
    destruct (initialize_globals_compiler_role flags os s s1 Hrun) as (c & Hc & Hrole).
    exists s1, c. split; [done|]. split; [done|]. split; [done|].
    unfold initialize_compiler, compiler_runtime, bind, read, ret. rewrite Hdump, Hc.
    unfold role_of in Hrole. unfold JVMCIRuntime_call_getCompiler.
    by destruct (heap s1 !! c) as [[]|].
  - intros Hnull.
    unfold initialize_compiler, compiler_runtime, bind, read, ret. by rewrite Hdump, Hnull.
Qed.

Lemma initialize_compiler_cases_witness :
  (∃ s1 c,
     initialize_globals flags_dual os_good initial_VM = Ret tt s1
     ∧ _compiler_runtime s1 = Some c
     ∧ role_of s1 (Some c) = Some 0
     ∧ initialize_compiler flags_dual s1 = Ret tt (add_effect (ECallGetCompiler c) s1))
  ∧ initialize_compiler flags_dual initial_VM = Stop BadPointer initial_VM.
Proof.
  destruct (initialize_compiler_cases flags_dual os_good initial_VM) as [Hafter Hbefore].
  split; [exact Hafter|]. apply Hbefore. reflexivity.
Defined.

(** X14. [initialize_globals] is not idempotent and has no guard against a
    second call: called again it constructs new runtimes and stores them
    over the old pointers, while the runtimes of the first call stay in the
    heap, with their roles, no longer referenced by either field. *)
Theorem initialize_globals_twice (flags : Flags) (os : Platform) (s : VM) :
  ∃ s1 s2,
    initialize_globals flags os s = Ret tt s1
    ∧ initialize_globals flags os s1 = Ret tt s2
    ∧ _compiler_runtime s2 ≠ _compiler_runtime s1
    ∧ _java_runtime s2 ≠ _java_runtime s1
    ∧ _compiler_runtime s2 ≠ _java_runtime s1
    ∧ _java_runtime s2 ≠ _compiler_runtime s1
    ∧ ∀ p z, role_of s1 p = Some z -> role_of s2 p = Some z.
Proof.
  destruct (initialize_globals_returns flags os s) as (s1 & Hrun1).
  destruct (initialize_globals_returns flags os s1) as (s2 & Hrun2).
  exists s1, s2. split; [done|]. split; [done|].
  destruct (initialize_globals_total flags os s s1 Hrun1) as (Hc1 & Hj1 & _).
  destruct (initialize_globals_total flags os s1 s2 Hrun2)
    as (Hc2 & Hj2 & _ & Hsub & Hfresh & _).
  apply is_runtime_in_heap in Hc1 as (c1 & rc1 & Ec1 & Hhc1).
  apply is_runtime_in_heap in Hj1 as (j1 & rj1 & Ej1 & Hhj1).
  apply is_runtime_in_heap in Hc2 as (c2 & rc2 & Ec2 & Hhc2).
  apply is_runtime_in_heap in Hj2 as (j2 & rj2 & Ej2 & Hhj2).
  assert (Hc2f : c2 ∉ dom (heap s1)) by (apply Hfresh; by left).
  assert (Hj2f : j2 ∉ dom (heap s1)) by (apply Hfresh; by right).
  assert (Hc1d : c1 ∈ dom (heap s1)) by (apply elem_of_dom; eauto).
  assert (Hj1d : j1 ∈ dom (heap s1)) by (apply elem_of_dom; eauto).
  rewrite Ec1, Ej1, Ec2, Ej2.
  repeat split; try (intros [= ->]; done).
  intros p z. unfold role_of. destruct p as [a|]; [|done].
  destruct (heap s1 !! a) as [o|] eqn:Ha; [|done].
  by rewrite (lookup_weaken _ _ _ _ Ha Hsub).
Qed.

(** X15. Only level 1 uses the coarse log: [vlog] sends every other level,
    levels below 1 included, to the verbose log.  So with logging enabled
    and a configured log level of at most 1, under which
    [initialize_globals] constructs no verbose log, a call of [event] at a
    level below 1 that passes the log gate stops at the [guarantee], also
    after [initialize_globals]. *)
Theorem event_below_level_one (flags : Flags) (os : Platform) (current : option Thread)
    (level : Z) (msg : string) (s : VM) :
  _verbose_events s = NULL ->
  LogEvents flags = true ->
  level < 1 ->
  level <= JVMCIEventLogLevel flags ->
  JVMCIEventLogLevel flags <= 1 ->
  ∃ s1,
    initialize_globals flags os s = Ret tt s1
    ∧ event flags current level msg s1
      = Stop (GuaranteeFailed "JVMCI event log not yet initialized") s1.
Proof.
  intros Hnull Hlog Hlevel Hgate Hmax.
  destruct (initialize_globals_channels_verbose flags os s) as (s1 & Hrun & Hv).
  exists s1. split; [done|].
  replace (1 <? JVMCIEventLogLevel flags) with false in Hv by lia.
  rewrite andb_false_r in Hv.
  assert (Hopen : log_gate flags level = true) by (apply log_gate_true; by split).
  assert (Hsel : selected_channel level s1 = NULL).
  { unfold selected_channel. replace (level =? 1) with false by lia. congruence. }
  unfold event, LOG_TRACE.
  by rewrite (bind_stop _ _ _ _ _ (vlog_null flags current level msg s1 Hopen Hsel)).
Qed.

Lemma event_below_level_one_witness :
  ∃ s1,
    initialize_globals flags_single os_good initial_VM = Ret tt s1
    ∧ event flags_single (Some main_thread) 0 "zero" s1
      = Stop (GuaranteeFailed "JVMCI event log not yet initialized") s1.
Proof.
  apply (event_below_level_one flags_single os_good (Some main_thread) 0 "zero" initial_VM);
    first [reflexivity | by vm_compute].
Defined.
